(** * Student management system: entity model, DataStore and JSON codec

    A shallow embedding of [student_management_system.py].

    - The dataclasses [Person]/[Student] and [Course] become records whose
      fields have the types of the dataclass annotations.
    - The two dictionaries of [DataStore] are finite maps keyed by strings.
      A record lives in the dictionary and is mutated in place by the
      source; here the updated record is written back under its key.
    - In this first embedding a record is the value of its fields, which
      is what the program shows as long as no two records are built on the
      same list or dictionary object (the dataclass gives each record its
      own through [default_factory], and [json.load] builds new ones).
      Module [Obj] further down embeds the same classes with the lists and
      dictionaries as objects in a heap; what depends on the records that
      share an object is stated there.
    - Methods that mutate [self] and return a value return the pair of the
      value and the new state. *)

From Stdlib Require Import ZArith String Ascii List.
From stdpp Require Import base option strings list gmap fin_maps.

Local Open Scope string_scope.

(** ** Section 1 of the source: data model classes *)

Module Student.

(** [class Student(Person)]: the three inherited fields of [Person]
    followed by the fields of [Student], in the order of the generated
    constructor. *)
Record t : Type := mk {
  name : string;
  age : Z;
  address : string;
  student_id : string;
  grades : gmap string string;
  courses : list string
}.

(** [self.grades[course_code] = grade] *)
Definition add_grade (course_code grade : string) (self : t) : t :=
  {| name := name self; age := age self; address := address self;
     student_id := student_id self;
     grades := <[course_code := grade]> (grades self);
     courses := courses self |}.

(** [if course_code not in self.courses: self.courses.append(course_code)] *)
Definition enroll_course (course_code : string) (self : t) : t :=
  if decide (course_code ∉ courses self)
  then {| name := name self; age := age self; address := address self;
          student_id := student_id self;
          grades := grades self;
          courses := courses self ++ [course_code] |}
  else self.

End Student.

Module Course.

Record t : Type := mk {
  course_name : string;
  course_code : string;
  instructor : string;
  students : list string
}.

(** [if student_id not in self.students: self.students.append(student_id)] *)
Definition add_student (student_id : string) (self : t) : t :=
  if decide (student_id ∉ students self)
  then {| course_name := course_name self; course_code := course_code self;
          instructor := instructor self;
          students := students self ++ [student_id] |}
  else self.

End Course.

(** ** Section 2 of the source: the in-memory store *)

Module DataStore.

Record t : Type := mk {
  students : gmap string Student.t;
  courses : gmap string Course.t
}.

(** [DataStore.__init__] *)
Definition empty : t := {| students := ∅; courses := ∅ |}.

(** The three error strings and the two formatted messages returned by
    [enroll] and [add_grade]. *)
Definition student_not_found : string := "Error: Student ID not found.".
Definition course_not_found : string := "Error: Course code not found.".
Definition not_enrolled : string :=
  "Error: Student must be enrolled in the course before assigning a grade.".

Definition enrolled_message (student : Student.t) (course : Course.t) : string :=
  "Student " +:+ Student.name student +:+ " (ID: " +:+ Student.student_id student
    +:+ ") enrolled in " +:+ Course.course_name course
    +:+ " (Code: " +:+ Course.course_code course +:+ ").".

Definition graded_message (grade : string) (student : Student.t) (course : Course.t)
  : string :=
  "Grade " +:+ grade +:+ " added for " +:+ Student.name student
    +:+ " in " +:+ Course.course_name course +:+ ".".

Definition add_student (student : Student.t) (self : t) : bool * t :=
  if decide (is_Some (students self !! Student.student_id student))
  then (false, self)
  else (true, {| students := <[Student.student_id student := student]> (students self);
                 courses := courses self |}).

Definition get_student (student_id : string) (self : t) : option Student.t :=
  students self !! student_id.

Definition add_course (course : Course.t) (self : t) : bool * t :=
  if decide (is_Some (courses self !! Course.course_code course))
  then (false, self)
  else (true, {| students := students self;
                 courses := <[Course.course_code course := course]> (courses self) |}).

Definition get_course (course_code : string) (self : t) : option Course.t :=
  courses self !! course_code.

(** A dataclass instance is always truthy, so [if not student] is taken
    exactly when [get_student] returned [None]. *)
Definition enroll (student_id course_code : string) (self : t) : string * t :=
  match get_student student_id self with
  | None => (student_not_found, self)
  | Some student =>
    match get_course course_code self with
    | None => (course_not_found, self)
    | Some course =>
      let student' := Student.enroll_course course_code student in
      let course' := Course.add_student student_id course in
      (enrolled_message student' course',
       {| students := <[student_id := student']> (students self);
          courses := <[course_code := course']> (courses self) |})
    end
  end.

Definition add_grade (student_id course_code grade : string) (self : t)
  : string * t :=
  match get_student student_id self with
  | None => (student_not_found, self)
  | Some student =>
    match get_course course_code self with
    | None => (course_not_found, self)
    | Some course =>
      if decide (course_code ∉ Student.courses student)
      then (not_enrolled, self)
      else
        let student' := Student.add_grade course_code grade student in
        (graded_message grade student' course,
         {| students := <[student_id := student']> (students self);
            courses := courses self |})
    end
  end.

End DataStore.

(** ** Persistence: the JSON-serializable document *)

(** The values [json.load] builds and [json.dump] accepts.  A Python [dict]
    keeps its items in insertion order, and [from_json] visits them in that
    order, so an object is the list of its items. *)
#[warnings="-register-all"] Inductive json : Type :=
  | JNull
  | JBool (b : bool)
  | JInt (n : Z)
  | JFloat (mantissa exponent : Z)
  | JStr (s : string)
  | JList (l : list json)
  | JDict (items : list (string * json)).

(** The exceptions the subscripts and method calls of [from_json] raise. *)
Inductive exn : Type :=
  | KeyError (key : string)
  | TypeError
  | AttributeError.

Inductive outcome (A : Type) : Type :=
  | Return (a : A)
  | Raise (e : exn).
Arguments Return {A} a.
Arguments Raise {A} e.

#[global] Instance outcome_ret : MRet outcome := λ A a, Return a.
#[global] Instance outcome_bind : MBind outcome := λ A B f m,
  match m with
  | Return a => f a
  | Raise e => Raise e
  end.

(** The arguments an exception was raised with: [KeyError] carries the
    key that was looked up, the other two a message made of type names. *)
Definition exn_args (e : exn) : list string :=
  match e with
  | KeyError key => [key]
  | TypeError | AttributeError => []
  end.

Module Py.

(** Items of a [dict] by key. *)
Fixpoint lookup (k : string) (items : list (string * json)) : option json :=
  match items with
  | [] => None
  | (k', v) :: rest => if String.eqb k k' then Some v else lookup k rest
  end.

(** [s[k]] for a string [k]: [KeyError(k)] on a dict without the key,
    [TypeError] on every other JSON value. *)
Definition getitem (s : json) (k : string) : outcome json :=
  match s with
  | JDict items =>
    match lookup k items with
    | Some v => Return v
    | None => Raise (KeyError k)
    end
  | _ => Raise TypeError
  end.

(** [s.get(k, default)]: only a dict has the method. *)
Definition get (s : json) (k : string) (fallback : json) : outcome json :=
  match s with
  | JDict items => Return (default fallback (lookup k items))
  | _ => Raise AttributeError
  end.

(** [s.items()] *)
Definition items (s : json) : outcome (list (string * json)) :=
  match s with
  | JDict its => Return its
  | _ => Raise AttributeError
  end.

End Py.

(** *** Reading a JSON value at the type a dataclass field is annotated with

    Python does not check the annotations: [Student(name=5, ...)] is built
    without complaint.  Such a record has no counterpart among the typed
    records above, so reading gives [None] for it.  No exception is raised
    at that point and the loops of [from_json] go on. *)
Module Typed.

Definition str (v : json) : option string :=
  match v with JStr s => Some s | _ => None end.

(** A JSON boolean is not read as a number: [json.dump] would write it
    back as [true] or [false]. *)
Definition int (v : json) : option Z :=
  match v with JInt n => Some n | _ => None end.

(** [List[str]] *)
Definition str_list (v : json) : option (list string) :=
  match v with JList l => mapM str l | _ => None end.

(** [Dict[str, str]]; a later item with the same key overrides. *)
Definition str_dict (v : json) : option (gmap string string) :=
  match v with
  | JDict items =>
    foldl (λ acc kv, m ← acc; g ← str kv.2; Some (<[kv.1 := g]> m)) (Some ∅) items
  | _ => None
  end.

End Typed.

Module Codec.

Definition student_to_json (s : Student.t) : json :=
  JDict [ ("name", JStr (Student.name s));
          ("age", JInt (Student.age s));
          ("address", JStr (Student.address s));
          ("student_id", JStr (Student.student_id s));
          ("grades", JDict (prod_map id JStr <$> map_to_list (Student.grades s)));
          ("courses", JList (JStr <$> Student.courses s)) ].

Definition course_to_json (c : Course.t) : json :=
  JDict [ ("course_name", JStr (Course.course_name c));
          ("course_code", JStr (Course.course_code c));
          ("instructor", JStr (Course.instructor c));
          ("students", JList (JStr <$> Course.students c)) ].

(** [DataStore.to_json].  The comprehensions go through [items()]; the
    items come here in the order [map_to_list] gives them, and reading the
    document back does not depend on that order. *)
Definition to_json (self : DataStore.t) : json :=
  JDict [ ("students",
           JDict (prod_map id student_to_json <$> map_to_list (DataStore.students self)));
          ("courses",
           JDict (prod_map id course_to_json <$> map_to_list (DataStore.courses self))) ].

(** The call [Student(name=s["name"], ..., courses=s.get("courses", []))]:
    the arguments are evaluated left to right, so the first subscript
    that fails decides the exception. *)
Definition student_of_json (s : json) : outcome (option Student.t) :=
  name ← Py.getitem s "name";
  age ← Py.getitem s "age";
  address ← Py.getitem s "address";
  student_id ← Py.getitem s "student_id";
  grades ← Py.get s "grades" (JDict []);
  courses ← Py.get s "courses" (JList []);
  Return (n ← Typed.str name; a ← Typed.int age; ad ← Typed.str address;
          i ← Typed.str student_id; g ← Typed.str_dict grades;
          c ← Typed.str_list courses;
          Some (Student.mk n a ad i g c)).

Definition course_of_json (c : json) : outcome (option Course.t) :=
  course_name ← Py.getitem c "course_name";
  course_code ← Py.getitem c "course_code";
  instructor ← Py.getitem c "instructor";
  students ← Py.get c "students" (JList []);
  Return (n ← Typed.str course_name; cc ← Typed.str course_code;
          i ← Typed.str instructor; l ← Typed.str_list students;
          Some (Course.mk n cc i l)).

(** The loop [for k, v in ...items(): target[k] = build(v)].  The
    accumulator is [None] once a record outside the typed model has been
    stored; the loop still runs to its end or to the first exception. *)
Fixpoint rebuild {A} (build : json → outcome (option A))
    (items : list (string * json)) (target : option (gmap string A))
  : outcome (option (gmap string A)) :=
  match items with
  | [] => Return target
  | (k, v) :: rest =>
    x ← build v;
    rebuild build rest (m ← target; a ← x; Some (<[k := a]> m))
  end.

(** [DataStore.from_json] *)
Definition from_json (data : json) : outcome (option DataStore.t) :=
  sdoc ← Py.get data "students" (JDict []);
  sitems ← Py.items sdoc;
  students ← rebuild student_of_json sitems (Some ∅);
  cdoc ← Py.get data "courses" (JDict []);
  citems ← Py.items cdoc;
  courses ← rebuild course_of_json citems (Some ∅);
  Return (s ← students; c ← courses; Some (DataStore.mk s c)).

End Codec.

(** ** Sequences of public operations *)

Module Trace.

(** One call of a public operation of [DataStore]. *)
Inductive op : Type :=
  | AddStudent (student : Student.t)
  | AddCourse (course : Course.t)
  | Enroll (student_id course_code : string)
  | AddGrade (student_id course_code grade : string).

(** The store after the call; the returned value is dropped. *)
Definition apply (o : op) (ds : DataStore.t) : DataStore.t :=
  match o with
  | AddStudent student => (DataStore.add_student student ds).2
  | AddCourse course => (DataStore.add_course course ds).2
  | Enroll student_id course_code => (DataStore.enroll student_id course_code ds).2
  | AddGrade student_id course_code grade =>
    (DataStore.add_grade student_id course_code grade ds).2
  end.

(** The store built from [DataStore()] by the calls, first call first. *)
Definition run (ops : list op) : DataStore.t :=
  foldl (λ ds o, apply o ds) DataStore.empty ops.

(** Stores reachable by calls whose arguments satisfy [P]. *)
Definition reachable_by (P : op → Prop) (ds : DataStore.t) : Prop :=
  ∃ ops, Forall P ops ∧ ds = run ops.

(** Stores reachable by any calls whatsoever. *)
Definition reachable (ds : DataStore.t) : Prop :=
  reachable_by (λ _, True) ds.

(** A student record that already respects "graded only if enrolled". *)
Definition graded_within_courses (s : Student.t) : Prop :=
  ∀ course_code, is_Some (Student.grades s !! course_code) →
                 course_code ∈ Student.courses s.

Definition consistent_record (o : op) : Prop :=
  match o with
  | AddStudent student => graded_within_courses student
  | _ => True
  end.

(** A student record added without enrolments and a course record added
    without students. *)
Definition unlinked (o : op) : Prop :=
  match o with
  | AddStudent student => Student.courses student = []
  | AddCourse course => Course.students course = []
  | Enroll _ _ | AddGrade _ _ _ => True
  end.

End Trace.

(** ** Properties of a store *)

(** Both directions of every enrolment link agree. *)
Definition enrollment_symmetric (ds : DataStore.t) : Prop :=
  ∀ sid s cc c,
    DataStore.students ds !! sid = Some s →
    DataStore.courses ds !! cc = Some c →
    Course.course_code c ∈ Student.courses s ↔
    Student.student_id s ∈ Course.students c.

(** Every graded course of every student is one of the student's courses. *)
Definition grades_within_courses (ds : DataStore.t) : Prop :=
  ∀ sid s, DataStore.students ds !! sid = Some s → Trace.graded_within_courses s.

(** The strings [enroll] and [add_grade] return on failure. *)
Definition error_results : list string :=
  [DataStore.student_not_found; DataStore.course_not_found; DataStore.not_enrolled].

(** ** Referential integrity *)

(** Referential integrity: records sit under their own identifier and every
    enrolment link points at a record of the store that points back. *)
Record linked (ds : DataStore.t) : Prop := Linked {
  linked_student_key : ∀ k s,
    DataStore.students ds !! k = Some s → Student.student_id s = k;
  linked_course_key : ∀ k c,
    DataStore.courses ds !! k = Some c → Course.course_code c = k;
  linked_forward : ∀ k s cc,
    DataStore.students ds !! k = Some s → cc ∈ Student.courses s →
    ∃ c, DataStore.courses ds !! cc = Some c ∧ k ∈ Course.students c;
  linked_backward : ∀ k c sid,
    DataStore.courses ds !! k = Some c → sid ∈ Course.students c →
    ∃ s, DataStore.students ds !! sid = Some s ∧ k ∈ Student.courses s
}.

(** ** Documents with missing fields *)

(** The fields [from_json] reads with a subscript. *)
Definition student_required : list string :=
  ["name"; "age"; "address"; "student_id"].
Definition course_required : list string :=
  ["course_name"; "course_code"; "instructor"].

Definition is_dict (v : json) : bool :=
  match v with JDict _ => true | _ => false end.

(** The entries of the section ["students"] or ["courses"] of a document. *)
Definition section_items (data : json) (section : string) : list (string * json) :=
  match data with
  | JDict top =>
    match Py.lookup section top with
    | Some (JDict entries) => entries
    | _ => []
    end
  | _ => []
  end.

(** The entry is an object without the required field [f]. *)
Definition lacks (required : list string) (entry : json) (f : string) : Prop :=
  match entry with
  | JDict fields => f ∈ required ∧ Py.lookup f fields = None
  | _ => False
  end.

(** Some student or course entry of the document lacks a required field. *)
Definition has_lacking_entry (data : json) : Prop :=
  (∃ k v f, (k, v) ∈ section_items data "students" ∧ lacks student_required v f) ∨
  (∃ k v f, (k, v) ∈ section_items data "courses" ∧ lacks course_required v f).

(** The document is an object whose two sections, where present, are
    objects whose entries are objects. *)
Definition section_shaped (top : list (string * json)) (section : string) : Prop :=
  match Py.lookup section top with
  | None => True
  | Some (JDict entries) => Forall (λ kv, is_dict kv.2 = true) entries
  | Some _ => False
  end.

Definition shaped (data : json) : Prop :=
  match data with
  | JDict top => section_shaped top "students" ∧ section_shaped top "courses"
  | _ => False
  end.

(** The first required field, in the order of the subscripts, that the
    fields of an entry lack. *)
Fixpoint first_missing (required : list string) (fields : list (string * json))
  : option string :=
  match required with
  | [] => None
  | f :: rest =>
    match Py.lookup f fields with
    | None => Some f
    | Some _ => first_missing rest fields
    end
  end.

(** The first entry, in document order, that lacks a required field, with
    that field. *)
Fixpoint first_lacking (required : list string) (items : list (string * json))
  : option (string * string) :=
  match items with
  | [] => None
  | (k, v) :: rest =>
    match v with
    | JDict fields =>
      match first_missing required fields with
      | Some f => Some (k, f)
      | None => first_lacking required rest
      end
    | _ => first_lacking required rest
    end
  end.

(** The entry and field [from_json] stops at: the students are rebuilt
    before the courses. *)
Definition first_failure (data : json) : option (string * string) :=
  match first_lacking student_required (section_items data "students") with
  | Some kf => Some kf
  | None => first_lacking course_required (section_items data "courses")
  end.

(** A student entry without a name. *)
Definition nameless : json :=
  JDict [("students",
          JDict [("S1", JDict [("age", JInt 20); ("address", JStr "Dhaka");
                               ("student_id", JStr "S1")])])].

(** ** The scenario of the specification *)

Definition alia : Student.t :=
  Student.mk "Alia" 20 "Dhaka" "S1" ∅ [].

Definition algorithms : Course.t :=
  Course.mk "Algorithms" "C1" "Dr. X" [].

(** A second record that reuses the identifier of [alia]. *)
Definition impostor : Student.t :=
  Student.mk "Bela" 31 "Sylhet" "S1" ∅ [].

Definition campus : DataStore.t :=
  Trace.run [Trace.AddStudent alia; Trace.AddCourse algorithms].

Definition campus_enrolled : DataStore.t :=
  Trace.run [Trace.AddStudent alia; Trace.AddCourse algorithms; Trace.Enroll "S1" "C1"].

Definition campus_graded : DataStore.t :=
  Trace.run [Trace.AddStudent alia; Trace.AddCourse algorithms;
             Trace.Enroll "S1" "C1"; Trace.AddGrade "S1" "C1" "A"].

(** A record handed to [add_student] with its course list already filled. *)
Definition prelinked : Student.t :=
  Student.mk "Alia" 20 "Dhaka" "S1" ∅ ["C1"].

(** ** Further conditions on the records handed to the store *)

(** A record whose own list has no repeated entry. *)
Definition duplicate_free (o : Trace.op) : Prop :=
  match o with
  | Trace.AddStudent student => NoDup (Student.courses student)
  | Trace.AddCourse course => NoDup (Course.students course)
  | Trace.Enroll _ _ | Trace.AddGrade _ _ _ => True
  end.

(** A student record added without grades. *)
Definition ungraded (o : Trace.op) : Prop :=
  match o with
  | Trace.AddStudent student => Student.grades student = ∅
  | _ => True
  end.

(** ** Further properties of a store *)

(** Every record sits under its own identifier. *)
Definition keyed (ds : DataStore.t) : Prop :=
  (∀ k s, DataStore.students ds !! k = Some s → Student.student_id s = k) ∧
  (∀ k c, DataStore.courses ds !! k = Some c → Course.course_code c = k).

(** No list of the store repeats an entry. *)
Definition duplicate_free_lists (ds : DataStore.t) : Prop :=
  (∀ k s, DataStore.students ds !! k = Some s → NoDup (Student.courses s)) ∧
  (∀ k c, DataStore.courses ds !! k = Some c → NoDup (Course.students c)).

(** Every graded course is a course of the store. *)
Definition graded_courses_exist (ds : DataStore.t) : Prop :=
  ∀ k s cc, DataStore.students ds !! k = Some s →
            is_Some (Student.grades s !! cc) →
            is_Some (DataStore.courses ds !! cc).

(** The later state of a student record: same personal fields, the course
    list continued at its end, no graded course forgotten. *)
Definition student_extends (s s' : Student.t) : Prop :=
  Student.name s' = Student.name s ∧ Student.age s' = Student.age s ∧
  Student.address s' = Student.address s ∧
  Student.student_id s' = Student.student_id s ∧
  Student.courses s `prefix_of` Student.courses s' ∧
  ∀ cc, is_Some (Student.grades s !! cc) → is_Some (Student.grades s' !! cc).

Definition course_extends (c c' : Course.t) : Prop :=
  Course.course_name c' = Course.course_name c ∧
  Course.course_code c' = Course.course_code c ∧
  Course.instructor c' = Course.instructor c ∧
  Course.students c `prefix_of` Course.students c'.

(** Every record of the first store is in the second, extended. *)
Definition store_extends (ds ds' : DataStore.t) : Prop :=
  (∀ k s, DataStore.students ds !! k = Some s →
     ∃ s', DataStore.students ds' !! k = Some s' ∧ student_extends s s') ∧
  (∀ k c, DataStore.courses ds !! k = Some c →
     ∃ c', DataStore.courses ds' !! k = Some c' ∧ course_extends c c').

(** ** Display of a course *)

(** The text after the colon of the last line: the items joined by a
    comma and a space, or [None] for an empty list. *)
Definition joined_or_none (items : list string) : string :=
  match items with
  | [] => "None"
  | _ => String.concat ", " items
  end.

(** [Course.display_course_info]: the lines it prints, in order.  The
    argument is [None] when the caller leaves it out; [if student_lookup:]
    fails for [None] and for a dictionary without items alike.  The
    comprehension keeps the identifiers found in the lookup and drops the
    others. *)
Definition display_course_info
    (student_lookup : option (gmap string Student.t)) (self : Course.t)
  : list string :=
  [ "Course Information:";
    "Course Name: " +:+ Course.course_name self;
    "Code: " +:+ Course.course_code self;
    "Instructor: " +:+ Course.instructor self;
    match student_lookup with
    | Some lookup =>
      if decide (size lookup = 0)
      then "Enrolled Students (IDs): " +:+ joined_or_none (Course.students self)
      else
        let student_names :=
          omap (λ sid, Student.name <$> lookup !! sid) (Course.students self) in
        "Enrolled Students: " +:+ joined_or_none student_names
    | None => "Enrolled Students (IDs): " +:+ joined_or_none (Course.students self)
    end ].

(** ** Section 3 of the source: the command-line helpers *)

(** The built-ins of Python that the helpers apply to the text they read:
    [s.strip()], [s.isdigit()] and [int(s)], which is [None] when [int]
    raises [ValueError]. *)
Class Builtins : Type := {
  str_strip : string → string;
  str_isdigit : string → bool;
  int_of_str : string → option Z
}.

(** What reaches the terminal: a line written by [print], or the prompt
    written by [input] before it reads. *)
Inductive event : Type :=
  | Printed (line : string)
  | Prompted (text : string).

(** The lines still to be read from standard input and what was written so
    far, oldest first. *)
Record console : Type := Console {
  stdin : list string;
  stdout : list event
}.

Inductive cli_exn : Type :=
  | EOFError
  | ValueError.

Inductive cli_result (A : Type) : Type :=
  | Done (a : A) (c : console)
  | Failed (e : cli_exn) (c : console).
Arguments Done {A} a c.
Arguments Failed {A} e c.

Definition cli (A : Type) : Type := console → cli_result A.

#[global] Instance cli_ret : MRet cli := λ A a c, Done a c.
#[global] Instance cli_fmap : FMap cli := λ A B f m c,
  match m c with
  | Done a c' => Done (f a) c'
  | Failed e c' => Failed e c'
  end.
#[global] Instance cli_bind : MBind cli := λ A B f m c,
  match m c with
  | Done a c' => f a c'
  | Failed e c' => Failed e c'
  end.

(** [print(line)] *)
Definition print (line : string) : cli unit :=
  λ c, Done () {| stdin := stdin c; stdout := (stdout c ++ [Printed line])%list |}.

(** [input(prompt)]: the prompt is written, then a line is read;
    [EOFError] when standard input has no line left. *)
Definition input (prompt : string) : cli string :=
  λ c,
    let shown := (stdout c ++ [Prompted prompt])%list in
    match stdin c with
    | [] => Failed EOFError {| stdin := []; stdout := shown |}
    | line :: rest => Done line {| stdin := rest; stdout := shown |}
    end.

Definition invalid_number : string := "Invalid input. Please enter a valid number.".

(** A string is true in a condition when it is not empty. *)
Definition truthy (s : string) : bool := negb (String.eqb s "").

Section Cli.

Context {builtins : Builtins}.

(** [int(raw)] *)
Definition int_or_raise (raw : string) : cli Z :=
  λ c,
    match int_of_str raw with
    | Some n => Done n c
    | None => Failed ValueError c
    end.

(** [prompt_int]: the [while True] loop reads one line per round, so it is
    written by recursion on the lines left; [prompt_int_unfold] below gives
    the loop body back. *)
Fixpoint prompt_int_loop (prompt_text : string) (lines : list string)
    (written : list event) : cli_result Z :=
  match lines with
  | [] =>
    Failed EOFError
      {| stdin := []; stdout := (written ++ [Prompted prompt_text])%list |}
  | line :: rest =>
    let shown := (written ++ [Prompted prompt_text])%list in
    let raw := str_strip line in
    if str_isdigit raw
    then int_or_raise raw {| stdin := rest; stdout := shown |}
    else prompt_int_loop prompt_text rest (shown ++ [Printed invalid_number])%list
  end.

Definition prompt_int (prompt_text : string) : cli Z :=
  λ c, prompt_int_loop prompt_text (stdin c) (stdout c).

Definition add_new_student_cli (ds : DataStore.t) : cli DataStore.t :=
  name ← str_strip <$> input "Enter Name: ";
  age ← prompt_int "Enter Age: ";
  address ← str_strip <$> input "Enter Address: ";
  student_id ← str_strip <$> input "Enter Student ID: ";
  if negb (forallb truthy [name; address; student_id])
  then print "Error: Name, Address, and Student ID are required.";; mret ds
  else
    let student := Student.mk name age address student_id ∅ [] in
    let '(added, ds') := DataStore.add_student student ds in
    if added
    then print ("Student " +:+ Student.name student +:+ " (ID: "
                  +:+ Student.student_id student +:+ ") added successfully.");;
         mret ds'
    else print "Error: A student with this ID already exists.";; mret ds'.

Definition add_new_course_cli (ds : DataStore.t) : cli DataStore.t :=
  course_name ← str_strip <$> input "Enter Course Name: ";
  course_code ← str_strip <$> input "Enter Course Code: ";
  instructor ← str_strip <$> input "Enter Instructor: ";
  if negb (forallb truthy [course_name; course_code; instructor])
  then print "Error: Course Name, Course Code, and Instructor are required.";;
       mret ds
  else
    let course := Course.mk course_name course_code instructor [] in
    let '(added, ds') := DataStore.add_course course ds in
    if added
    then print ("Course " +:+ Course.course_name course +:+ " (Code: "
                  +:+ Course.course_code course +:+ ") created with instructor "
                  +:+ Course.instructor course +:+ ".");;
         mret ds'
    else print "Error: A course with this code already exists.";; mret ds'.

Definition enroll_student_in_course_cli (ds : DataStore.t) : cli DataStore.t :=
  student_id ← str_strip <$> input "Enter Student ID: ";
  course_code ← str_strip <$> input "Enter Course Code: ";
  let '(msg, ds') := DataStore.enroll student_id course_code ds in
  print msg;; mret ds'.

Definition add_grade_for_student_cli (ds : DataStore.t) : cli DataStore.t :=
  student_id ← str_strip <$> input "Enter Student ID: ";
  course_code ← str_strip <$> input "Enter Course Code: ";
  grade ← str_strip <$> input "Enter Grade: ";
  if negb (truthy grade)
  then print "Error: Grade cannot be empty.";; mret ds
  else
    let '(msg, ds') := DataStore.add_grade student_id course_code grade ds in
    print msg;; mret ds'.



End Cli.

(** *** The built-ins on ASCII text

    Enough of [str.strip], [str.isdigit] and [int] to run the helpers on
    typed-in ASCII lines: white space is the characters 9 to 13, 28 to 31
    and the blank, a digit is one of [0] to [9], and [int] is given a
    string of digits only, as [prompt_int] does. *)
Definition ascii_isspace (a : ascii) : bool :=
  let n := nat_of_ascii a in
  (Nat.leb 9 n && Nat.leb n 13) || (Nat.leb 28 n && Nat.leb n 32).

Fixpoint lstrip (s : string) : string :=
  match s with
  | EmptyString => EmptyString
  | String a rest => if ascii_isspace a then lstrip rest else s
  end.

Definition reverse_string (s : string) : string :=
  string_of_list_ascii (reverse (list_ascii_of_string s)).

Definition ascii_strip (s : string) : string :=
  reverse_string (lstrip (reverse_string (lstrip s))).

Definition ascii_digit (a : ascii) : option Z :=
  let n := nat_of_ascii a in
  if Nat.leb 48 n && Nat.leb n 57 then Some (Z.of_nat n - 48)%Z else None.

Definition ascii_isdigit (s : string) : bool :=
  match s with
  | EmptyString => false
  | _ => forallb (λ a, bool_decide (is_Some (ascii_digit a))) (list_ascii_of_string s)
  end.

Definition digits_value (s : string) : option Z :=
  match s with
  | EmptyString => None
  | _ =>
    foldl (λ acc a, n ← acc; d ← ascii_digit a; Some (10 * n + d)%Z) (Some 0%Z)
          (list_ascii_of_string s)
  end.

Definition ascii_builtins : Builtins :=
  {| str_strip := ascii_strip; str_isdigit := ascii_isdigit;
     int_of_str := digits_value |}.

(** *** What the helpers hand to the store *)

(** A call as the helpers make it: records with the fields that were typed
    in, none of them empty, and with empty collections; a grade that is not
    empty. *)
Definition entered (o : Trace.op) : Prop :=
  match o with
  | Trace.AddStudent s =>
    Student.name s ≠ "" ∧ Student.address s ≠ "" ∧ Student.student_id s ≠ "" ∧
    Student.grades s = ∅ ∧ Student.courses s = []
  | Trace.AddCourse c =>
    Course.course_name c ≠ "" ∧ Course.course_code c ≠ "" ∧
    Course.instructor c ≠ "" ∧ Course.students c = []
  | Trace.Enroll _ _ => True
  | Trace.AddGrade _ _ grade => grade ≠ ""
  end.

(** No record of the store has an empty name, address, identifier, course
    name, course code, instructor or grade. *)
Definition filled_in (ds : DataStore.t) : Prop :=
  (∀ k s, DataStore.students ds !! k = Some s →
     Student.name s ≠ "" ∧ Student.address s ≠ "" ∧ Student.student_id s ≠ "" ∧
     ∀ cc g, Student.grades s !! cc = Some g → g ≠ "") ∧
  (∀ k c, DataStore.courses ds !! k = Some c →
     Course.course_name c ≠ "" ∧ Course.course_code c ≠ "" ∧
     Course.instructor c ≠ "").

(** The terminal after the rounds of [prompt_int] that refused a line. *)
Definition refusals (prompt_text : string) (lines : list string) : list event :=
  lines ≫= λ _, [Prompted prompt_text; Printed invalid_number].

Section CliOutcome.

Context {builtins : Builtins}.

(** One of the four helpers that change the store has run to its end. *)
Definition helper_returned (ds : DataStore.t) (c : console)
    (ds' : DataStore.t) (c' : console) : Prop :=
  add_new_student_cli ds c = Done ds' c' ∨
  add_new_course_cli ds c = Done ds' c' ∨
  enroll_student_in_course_cli ds c = Done ds' c' ∨
  add_grade_for_student_cli ds c = Done ds' c'.

End CliOutcome.

(** ** The store with its objects

    A Python [Student] holds references to a [dict] and to a [list], and
    [add_student] stores the very object it is given: records built on one
    list or one dictionary change together when one of them is enrolled or
    graded.  In this second embedding of the same classes the lists and
    dictionaries live in a heap, a record holds their addresses, and the
    methods write to the heap in place.  The [Student] and [Course]
    objects themselves are never aliased in a store (a store files an
    object under its identifier once) and no method assigns their fields,
    so they stay records. *)
Module Obj.

Definition loc : Type := positive.

(** How a caller hands a list or a dictionary to a constructor: a new
    object with the given contents ([default_factory] gives a new empty
    one), or an object that exists already. *)
Inductive arg (A : Type) : Type :=
  | Fresh (contents : A)
  | Existing (address : loc).
Arguments Fresh {A} contents.
Arguments Existing {A} address.

Record heap : Type := Heap {
  lists : gmap loc (list string);
  dicts : gmap loc (gmap string string)
}.

(** The contents of an object; an address nothing was created at reads as
    an empty object. *)
Definition list_at (h : heap) (l : loc) : list string := default [] (lists h !! l).
Definition dict_at (h : heap) (l : loc) : gmap string string :=
  default ∅ (dicts h !! l).

Definition set_list (l : loc) (v : list string) (h : heap) : heap :=
  {| lists := <[l := v]> (lists h); dicts := dicts h |}.
Definition set_dict (l : loc) (v : gmap string string) (h : heap) : heap :=
  {| lists := lists h; dicts := <[l := v]> (dicts h) |}.

(** A new object sits at an address that no object has yet. *)
Definition new_list (contents : list string) (h : heap) : loc * heap :=
  let l := fresh (dom (lists h)) in (l, set_list l contents h).
Definition new_dict (contents : gmap string string) (h : heap) : loc * heap :=
  let l := fresh (dom (dicts h)) in (l, set_dict l contents h).

Definition pass_list (a : arg (list string)) (h : heap) : loc * heap :=
  match a with
  | Fresh contents => new_list contents h
  | Existing l => (l, h)
  end.
Definition pass_dict (a : arg (gmap string string)) (h : heap) : loc * heap :=
  match a with
  | Fresh contents => new_dict contents h
  | Existing l => (l, h)
  end.

Definition student_not_found : string := DataStore.student_not_found.
Definition course_not_found : string := DataStore.course_not_found.
Definition not_enrolled : string := DataStore.not_enrolled.

Module Student.

Record t : Type := mk {
  name : string;
  age : Z;
  address : string;
  student_id : string;
  grades : loc;
  courses : loc
}.

(** [self.grades[course_code] = grade] *)
Definition add_grade (course_code grade : string) (self : t) (h : heap) : heap :=
  set_dict (grades self) (<[course_code := grade]> (dict_at h (grades self))) h.

(** [if course_code not in self.courses: self.courses.append(course_code)] *)
Definition enroll_course (course_code : string) (self : t) (h : heap) : heap :=
  if decide (course_code ∉ list_at h (courses self))
  then set_list (courses self) (list_at h (courses self) ++ [course_code])%list h
  else h.

End Student.

Module Course.

Record t : Type := mk {
  course_name : string;
  course_code : string;
  instructor : string;
  students : loc
}.

(** [if student_id not in self.students: self.students.append(student_id)] *)
Definition add_student (student_id : string) (self : t) (h : heap) : heap :=
  if decide (student_id ∉ list_at h (students self))
  then set_list (students self) (list_at h (students self) ++ [student_id])%list h
  else h.

End Course.

Definition enrolled_message (student : Student.t) (course : Course.t) : string :=
  "Student " +:+ Student.name student +:+ " (ID: " +:+ Student.student_id student
    +:+ ") enrolled in " +:+ Course.course_name course
    +:+ " (Code: " +:+ Course.course_code course +:+ ").".

Definition graded_message (grade : string) (student : Student.t) (course : Course.t)
  : string :=
  "Grade " +:+ grade +:+ " added for " +:+ Student.name student
    +:+ " in " +:+ Course.course_name course +:+ ".".

Module DataStore.

Record t : Type := mk {
  students : gmap string Student.t;
  courses : gmap string Course.t;
  objects : heap
}.

(** [DataStore.__init__] *)
Definition empty : t :=
  {| students := ∅; courses := ∅; objects := {| lists := ∅; dicts := ∅ |} |}.

Definition add_student (student : Student.t) (self : t) : bool * t :=
  if decide (is_Some (students self !! Student.student_id student))
  then (false, self)
  else (true, {| students := <[Student.student_id student := student]> (students self);
                 courses := courses self; objects := objects self |}).

Definition get_student (student_id : string) (self : t) : option Student.t :=
  students self !! student_id.

Definition add_course (course : Course.t) (self : t) : bool * t :=
  if decide (is_Some (courses self !! Course.course_code course))
  then (false, self)
  else (true, {| students := students self;
                 courses := <[Course.course_code course := course]> (courses self);
                 objects := objects self |}).

Definition get_course (course_code : string) (self : t) : option Course.t :=
  courses self !! course_code.

Definition enroll (student_id course_code : string) (self : t) : string * t :=
  match get_student student_id self with
  | None => (student_not_found, self)
  | Some student =>
    match get_course course_code self with
    | None => (course_not_found, self)
    | Some course =>
      let h1 := Student.enroll_course course_code student (objects self) in
      let h2 := Course.add_student student_id course h1 in
      (enrolled_message student course,
       {| students := students self; courses := courses self; objects := h2 |})
    end
  end.

Definition add_grade (student_id course_code grade : string) (self : t)
  : string * t :=
  match get_student student_id self with
  | None => (student_not_found, self)
  | Some student =>
    match get_course course_code self with
    | None => (course_not_found, self)
    | Some course =>
      if decide (course_code ∉ list_at (objects self) (Student.courses student))
      then (not_enrolled, self)
      else
        let h1 := Student.add_grade course_code grade student (objects self) in
        (graded_message grade student course,
         {| students := students self; courses := courses self; objects := h1 |})
    end
  end.

End DataStore.

Module Trace.

(** One call by a user of [DataStore]: the constructor calls
    [Student(name, age, address, student_id, grades, courses)] and
    [Course(course_name, course_code, instructor, students)] followed by
    [add_student] or [add_course], or a call of [enroll] or [add_grade]. *)
Inductive op : Type :=
  | AddStudent (name : string) (age : Z) (address student_id : string)
               (grades : arg (gmap string string)) (courses : arg (list string))
  | AddCourse (course_name course_code instructor : string)
              (students : arg (list string))
  | Enroll (student_id course_code : string)
  | AddGrade (student_id course_code grade : string).

Definition apply (o : op) (ds : DataStore.t) : DataStore.t :=
  match o with
  | AddStudent name age address student_id grades courses =>
    let '(lg, h1) := pass_dict grades (DataStore.objects ds) in
    let '(lc, h2) := pass_list courses h1 in
    (DataStore.add_student (Student.mk name age address student_id lg lc)
       {| DataStore.students := DataStore.students ds;
          DataStore.courses := DataStore.courses ds;
          DataStore.objects := h2 |}).2
  | AddCourse course_name course_code instructor students =>
    let '(ls, h1) := pass_list students (DataStore.objects ds) in
    (DataStore.add_course (Course.mk course_name course_code instructor ls)
       {| DataStore.students := DataStore.students ds;
          DataStore.courses := DataStore.courses ds;
          DataStore.objects := h1 |}).2
  | Enroll student_id course_code => (DataStore.enroll student_id course_code ds).2
  | AddGrade student_id course_code grade =>
    (DataStore.add_grade student_id course_code grade ds).2
  end.

Definition run (ops : list op) : DataStore.t :=
  foldl (λ ds o, apply o ds) DataStore.empty ops.

Definition reachable_by (P : op → Prop) (ds : DataStore.t) : Prop :=
  ∃ ops, Forall P ops ∧ ds = run ops.

Definition reachable (ds : DataStore.t) : Prop := reachable_by (λ _, True) ds.

(** Every record is built on a new list of its own, empty for a student. *)
Definition unenrolled (o : op) : Prop :=
  match o with
  | AddStudent _ _ _ _ _ courses => courses = Fresh []
  | AddCourse _ _ _ students => ∃ l, students = Fresh l
  | Enroll _ _ | AddGrade _ _ _ => True
  end.

(** Every record is built on a new, empty list of its own. *)
Definition unlinked (o : op) : Prop :=
  match o with
  | AddStudent _ _ _ _ _ courses => courses = Fresh []
  | AddCourse _ _ _ students => students = Fresh []
  | Enroll _ _ | AddGrade _ _ _ => True
  end.


End Trace.

(** Both directions of every enrolment link agree. *)
Definition enrollment_symmetric (ds : DataStore.t) : Prop :=
  ∀ sid s cc c,
    DataStore.students ds !! sid = Some s →
    DataStore.courses ds !! cc = Some c →
    Course.course_code c ∈ list_at (DataStore.objects ds) (Student.courses s) ↔
    Student.student_id s ∈ list_at (DataStore.objects ds) (Course.students c).

(** Every graded course of every student is one of the student's courses. *)
Definition grades_within_courses (ds : DataStore.t) : Prop :=
  ∀ sid s cc,
    DataStore.students ds !! sid = Some s →
    is_Some (dict_at (DataStore.objects ds) (Student.grades s) !! cc) →
    cc ∈ list_at (DataStore.objects ds) (Student.courses s).

(** The lists of the records exist and no two records are built on the
    same list. *)
Record separate (ds : DataStore.t) : Prop := Separate {
  separate_student_list : ∀ k s,
    DataStore.students ds !! k = Some s →
    is_Some (lists (DataStore.objects ds) !! Student.courses s);
  separate_course_list : ∀ k c,
    DataStore.courses ds !! k = Some c →
    is_Some (lists (DataStore.objects ds) !! Course.students c);
  separate_students : ∀ k k' s s',
    DataStore.students ds !! k = Some s → DataStore.students ds !! k' = Some s' →
    Student.courses s = Student.courses s' → k = k';
  separate_courses : ∀ k k' c c',
    DataStore.courses ds !! k = Some c → DataStore.courses ds !! k' = Some c' →
    Course.students c = Course.students c' → k = k';
  separate_student_course : ∀ k k' s c,
    DataStore.students ds !! k = Some s → DataStore.courses ds !! k' = Some c →
    Student.courses s ≠ Course.students c
}.

(** Records sit under their own identifier and every enrolment link
    points at a record of the store that points back. *)
Record linked (ds : DataStore.t) : Prop := Links {
  links_student_key : ∀ k s,
    DataStore.students ds !! k = Some s → Student.student_id s = k;
  links_course_key : ∀ k c,
    DataStore.courses ds !! k = Some c → Course.course_code c = k;
  links_forward : ∀ k s cc,
    DataStore.students ds !! k = Some s →
    cc ∈ list_at (DataStore.objects ds) (Student.courses s) →
    ∃ c, DataStore.courses ds !! cc = Some c ∧
         k ∈ list_at (DataStore.objects ds) (Course.students c);
  links_backward : ∀ k c sid,
    DataStore.courses ds !! k = Some c →
    sid ∈ list_at (DataStore.objects ds) (Course.students c) →
    ∃ s, DataStore.students ds !! sid = Some s ∧
         k ∈ list_at (DataStore.objects ds) (Student.courses s)
}.


End Obj.

(** What a record shows through its references. *)
Definition student_value (h : Obj.heap) (s : Obj.Student.t) : Student.t :=
  Student.mk (Obj.Student.name s) (Obj.Student.age s) (Obj.Student.address s)
             (Obj.Student.student_id s)
             (Obj.dict_at h (Obj.Student.grades s))
             (Obj.list_at h (Obj.Student.courses s)).

Definition course_value (h : Obj.heap) (c : Obj.Course.t) : Course.t :=
  Course.mk (Obj.Course.course_name c) (Obj.Course.course_code c)
            (Obj.Course.instructor c)
            (Obj.list_at h (Obj.Course.students c)).

(** *** Stores with objects, for the examples *)

(** Two students and two courses, every record on objects of its own. *)
Definition college : Obj.DataStore.t :=
  Obj.Trace.run
    [ Obj.Trace.AddStudent "Alia" 20 "Dhaka" "S1" (Obj.Fresh ∅) (Obj.Fresh []);
      Obj.Trace.AddStudent "Bela" 31 "Sylhet" "S2" (Obj.Fresh ∅) (Obj.Fresh []);
      Obj.Trace.AddCourse "Algorithms" "C1" "Dr. X" (Obj.Fresh []);
      Obj.Trace.AddCourse "Anatomy" "C2" "Dr. Y" (Obj.Fresh []);
      Obj.Trace.Enroll "S2" "C1"; Obj.Trace.Enroll "S2" "C2";
      Obj.Trace.AddGrade "S2" "C2" "B" ].

(** Two students built on one list and one dictionary:
    [shared = []; grades = {}] and then
    [Student("Alia", 20, "Dhaka", "S1", grades, shared)],
    [Student("Bela", 31, "Sylhet", "S2", grades, shared)]. *)
Definition twins : Obj.DataStore.t :=
  Obj.Trace.run
    [ Obj.Trace.AddStudent "Alia" 20 "Dhaka" "S1" (Obj.Fresh ∅) (Obj.Fresh []);
      Obj.Trace.AddStudent "Bela" 31 "Sylhet" "S2"
        (Obj.Existing 1%positive) (Obj.Existing 1%positive);
      Obj.Trace.AddCourse "Algorithms" "C1" "Dr. X" (Obj.Fresh []) ].

(** A student handed in with a course already listed, and one with a
    grade already recorded. *)
Definition prelinked_ops : list Obj.Trace.op :=
  [ Obj.Trace.AddStudent "Alia" 20 "Dhaka" "S1" (Obj.Fresh ∅) (Obj.Fresh ["C1"]);
    Obj.Trace.AddCourse "Algorithms" "C1" "Dr. X" (Obj.Fresh []) ].


(** [int] refuses a string of more than 4300 digits with [ValueError]
    (the default limit of the interpreter). *)
Definition max_str_digits : nat := 4300.

Definition limited_int (s : string) : option Z :=
  if Nat.ltb max_str_digits (String.length s) then None else digits_value s.

Definition limited_builtins : Builtins :=
  {| str_strip := ascii_strip; str_isdigit := ascii_isdigit;
     int_of_str := limited_int |}.

(** A line of 4301 digits. *)
Definition long_number : string :=
  string_of_list_ascii (replicate 4301 "7"%char).

(** * Proofs *)

(** ** Messages *)

Section Messages.

Lemma enrolled_message_not_error student course :
  DataStore.enrolled_message student course ∉ error_results.
Proof.
  unfold error_results, DataStore.enrolled_message. cbn.
  rewrite !elem_of_cons, elem_of_nil. intros [H|[H|[H|[]]]]; discriminate H.
Qed.

Lemma graded_message_not_error grade student course :
  DataStore.graded_message grade student course ∉ error_results.
Proof.
  unfold error_results, DataStore.graded_message. cbn.
  rewrite !elem_of_cons, elem_of_nil. intros [H|[H|[H|[]]]]; discriminate H.
Qed.

Lemma error_results_distinct : NoDup error_results.
Proof. unfold error_results. apply (bool_decide_unpack _). vm_compute. exact I. Qed.

(** The formatted messages read only fields that enrolling and grading
    leave alone. *)
Lemma enrolled_message_enroll sid cc s c :
  DataStore.enrolled_message (Student.enroll_course cc s) (Course.add_student sid c)
  = DataStore.enrolled_message s c.
Proof.
  unfold Student.enroll_course, Course.add_student.
  repeat case_decide; reflexivity.
Qed.

End Messages.

(** ** Entity methods *)

Section Entities.

Lemma enroll_course_courses cc s :
  cc ∈ Student.courses (Student.enroll_course cc s).
Proof.
  unfold Student.enroll_course. case_decide as H; cbn.
  - apply elem_of_app. right. apply list_elem_of_singleton. reflexivity.
  - destruct (decide (cc ∈ Student.courses s)); [assumption | contradiction].
Qed.

Lemma enroll_course_idem cc s :
  Student.enroll_course cc (Student.enroll_course cc s) = Student.enroll_course cc s.
Proof.
  unfold Student.enroll_course at 1. case_decide as H; [|reflexivity].
  destruct H. apply enroll_course_courses.
Qed.

Lemma add_student_students sid c :
  sid ∈ Course.students (Course.add_student sid c).
Proof.
  unfold Course.add_student. case_decide as H; cbn.
  - apply elem_of_app. right. apply list_elem_of_singleton. reflexivity.
  - destruct (decide (sid ∈ Course.students c)); [assumption | contradiction].
Qed.

Lemma add_student_idem sid c :
  Course.add_student sid (Course.add_student sid c) = Course.add_student sid c.
Proof.
  unfold Course.add_student at 1. case_decide as H; [|reflexivity].
  destruct H. apply add_student_students.
Qed.

Lemma enroll_course_elem cc cc' s :
  cc' ∈ Student.courses (Student.enroll_course cc s) ↔
  cc' ∈ Student.courses s ∨ cc' = cc.
Proof.
  unfold Student.enroll_course. case_decide as H; cbn.
  - rewrite elem_of_app, list_elem_of_singleton. reflexivity.
  - split; [auto|]. intros [?| ->]; [assumption|].
    destruct (decide (cc ∈ Student.courses s)); [assumption | contradiction].
Qed.

Lemma add_student_elem sid sid' c :
  sid' ∈ Course.students (Course.add_student sid c) ↔
  sid' ∈ Course.students c ∨ sid' = sid.
Proof.
  unfold Course.add_student. case_decide as H; cbn.
  - rewrite elem_of_app, list_elem_of_singleton. reflexivity.
  - split; [auto|]. intros [?| ->]; [assumption|].
    destruct (decide (sid ∈ Course.students c)); [assumption | contradiction].
Qed.

(** Enrolling touches the course list only. *)
Lemma enroll_course_frame cc s :
  let s' := Student.enroll_course cc s in
  Student.name s' = Student.name s ∧ Student.age s' = Student.age s ∧
  Student.address s' = Student.address s ∧
  Student.student_id s' = Student.student_id s ∧
  Student.grades s' = Student.grades s.
Proof. unfold Student.enroll_course. case_decide; cbn; auto. Qed.

Lemma add_student_frame sid c :
  let c' := Course.add_student sid c in
  Course.course_name c' = Course.course_name c ∧
  Course.course_code c' = Course.course_code c ∧
  Course.instructor c' = Course.instructor c.
Proof. unfold Course.add_student. case_decide; cbn; auto. Qed.

End Entities.

(** ** DataStore operations *)

Section Operations.

Implicit Types (ds : DataStore.t) (sid cc grade : string).

(** C5. [add_student] on an identifier already in the store returns
    [False] and changes nothing, so the record stored before is still the
    one [get_student] returns; on a new identifier it stores the record
    under that identifier, returns [True], and [get_student] returns the
    record that was added. *)
Theorem add_student_spec ds (student : Student.t) :
  (∀ old, DataStore.get_student (Student.student_id student) ds = Some old →
     DataStore.add_student student ds = (false, ds) ∧
     DataStore.get_student (Student.student_id student)
       (DataStore.add_student student ds).2 = Some old) ∧
  (DataStore.get_student (Student.student_id student) ds = None →
     ∃ ds', DataStore.add_student student ds = (true, ds') ∧
       DataStore.students ds'
         = <[Student.student_id student := student]> (DataStore.students ds) ∧
       DataStore.courses ds' = DataStore.courses ds ∧
       DataStore.get_student (Student.student_id student) ds' = Some student).
Proof.
  unfold DataStore.add_student, DataStore.get_student. split.
  - intros old Hold. case_decide as Hin.
    + split; [reflexivity | exact Hold].
    + destruct Hin. rewrite Hold. eexists. reflexivity.
  - intros Hnone. case_decide as Hin.
    + destruct Hin as [x Hx]. congruence.
    + eexists. repeat split; cbn. apply lookup_insert_eq.
Qed.

Lemma add_student_spec_witness :
  (DataStore.add_student impostor campus = (false, campus) ∧
   DataStore.get_student "S1" (DataStore.add_student impostor campus).2 = Some alia) ∧
  (∃ ds', DataStore.add_student alia DataStore.empty = (true, ds') ∧
     DataStore.students ds' = <[ "S1" := alia ]> ∅ ∧
     DataStore.courses ds' = ∅ ∧
     DataStore.get_student "S1" ds' = Some alia).
Proof.
  split.
  - apply (proj1 (add_student_spec campus impostor) alia). reflexivity.
  - apply (proj2 (add_student_spec DataStore.empty alia)). reflexivity.
Defined.

(** C4. In [enroll] and in [add_grade] the student is looked up first:
    with an unknown student identifier both return the student-not-found
    error and leave the store alone, whatever the course code is, known
    or not; that error is not the course-not-found one. *)
Theorem student_checked_first ds sid cc grade :
  DataStore.get_student sid ds = None →
  DataStore.enroll sid cc ds = (DataStore.student_not_found, ds) ∧
  DataStore.add_grade sid cc grade ds = (DataStore.student_not_found, ds) ∧
  DataStore.student_not_found ≠ DataStore.course_not_found.
Proof.
  intros H. unfold DataStore.enroll, DataStore.add_grade. rewrite H.
  repeat split. discriminate.
Qed.

Lemma student_checked_first_witness :
  (DataStore.enroll "S9" "C1" campus = (DataStore.student_not_found, campus) ∧
   DataStore.add_grade "S9" "C1" "A" campus = (DataStore.student_not_found, campus) ∧
   DataStore.student_not_found ≠ DataStore.course_not_found) ∧
  (DataStore.enroll "S9" "C9" campus = (DataStore.student_not_found, campus) ∧
   DataStore.add_grade "S9" "C9" "A" campus = (DataStore.student_not_found, campus) ∧
   DataStore.student_not_found ≠ DataStore.course_not_found).
Proof.
  split.
  - apply (student_checked_first campus "S9" "C1" "A"). reflexivity.
  - apply (student_checked_first campus "S9" "C9" "A"). reflexivity.
Defined.

(** C10. Whenever [add_grade] returns one of its three error strings,
    the store it leaves is the store it was given. *)
Theorem add_grade_error_atomic ds sid cc grade :
  (DataStore.add_grade sid cc grade ds).1 ∈ error_results →
  (DataStore.add_grade sid cc grade ds).2 = ds.
Proof.
  unfold DataStore.add_grade.
  destruct (DataStore.get_student sid ds) as [s|]; [|reflexivity].
  destruct (DataStore.get_course cc ds) as [c|]; [|reflexivity].
  case_decide; [reflexivity|]. cbn [fst snd].
  intros Herr. apply graded_message_not_error in Herr. contradiction.
Qed.

Lemma add_grade_error_atomic_witness :
  (DataStore.add_grade "S1" "C1" "A" campus).2 = campus ∧
  (DataStore.add_grade "S1" "C2" "B" campus).2 = campus ∧
  (DataStore.add_grade "S9" "C1" "A" campus).2 = campus.
Proof.
  split; [|split].
  - apply (add_grade_error_atomic campus "S1" "C1" "A").
    apply (bool_decide_unpack _). vm_compute. exact I.
  - apply (add_grade_error_atomic campus "S1" "C2" "B").
    apply (bool_decide_unpack _). vm_compute. exact I.
  - apply (add_grade_error_atomic campus "S9" "C1" "A").
    apply (bool_decide_unpack _). vm_compute. exact I.
Defined.

(** What [enroll] does when both records exist. *)
Lemma enroll_found ds sid cc s c :
  DataStore.get_student sid ds = Some s →
  DataStore.get_course cc ds = Some c →
  DataStore.enroll sid cc ds =
    (DataStore.enrolled_message s c,
     {| DataStore.students :=
          <[sid := Student.enroll_course cc s]> (DataStore.students ds);
        DataStore.courses :=
          <[cc := Course.add_student sid c]> (DataStore.courses ds) |}).
Proof.
  intros Hs Hc. unfold DataStore.enroll. rewrite Hs, Hc.
  cbv zeta. rewrite enrolled_message_enroll. reflexivity.
Qed.

(** C6. With the student and the course both in the store, a second
    [enroll] of the same pair returns the same success message as the
    first, which is none of the error strings, and leaves the store
    exactly as the first call left it. *)
Theorem enroll_idempotent ds sid cc s c :
  DataStore.get_student sid ds = Some s →
  DataStore.get_course cc ds = Some c →
  (DataStore.enroll sid cc (DataStore.enroll sid cc ds).2).2
    = (DataStore.enroll sid cc ds).2 ∧
  (DataStore.enroll sid cc ds).1 = DataStore.enrolled_message s c ∧
  (DataStore.enroll sid cc (DataStore.enroll sid cc ds).2).1
    = DataStore.enrolled_message s c ∧
  DataStore.enrolled_message s c ∉ error_results.
Proof.
  intros Hs Hc. rewrite (enroll_found ds sid cc s c Hs Hc). cbn [fst snd].
  erewrite enroll_found; cycle 1.
  { unfold DataStore.get_student. cbn. apply lookup_insert_eq. }
  { unfold DataStore.get_course. cbn. apply lookup_insert_eq. }
  cbn [fst snd DataStore.students DataStore.courses].
  rewrite enroll_course_idem, add_student_idem, !insert_insert_eq.
  rewrite enrolled_message_enroll.
  repeat split. apply enrolled_message_not_error.
Qed.

Lemma enroll_idempotent_witness :
  (DataStore.enroll "S1" "C1" (DataStore.enroll "S1" "C1" campus).2).2
    = (DataStore.enroll "S1" "C1" campus).2 ∧
  (DataStore.enroll "S1" "C1" campus).1
    = "Student Alia (ID: S1) enrolled in Algorithms (Code: C1)." ∧
  (DataStore.enroll "S1" "C1" (DataStore.enroll "S1" "C1" campus).2).1
    = "Student Alia (ID: S1) enrolled in Algorithms (Code: C1)." ∧
  "Student Alia (ID: S1) enrolled in Algorithms (Code: C1)." ∉ error_results.
Proof.
  apply (enroll_idempotent campus "S1" "C1" alia algorithms); reflexivity.
Defined.

End Operations.

(** ** The scenarios of the specification, run *)

Section Scenarios.

Example scenario_enroll :
  DataStore.enroll "S1" "C1" campus
  = ("Student Alia (ID: S1) enrolled in Algorithms (Code: C1).", campus_enrolled).
Proof. reflexivity. Qed.

Example scenario_grade :
  DataStore.add_grade "S1" "C1" "A" campus_enrolled
  = ("Grade A added for Alia in Algorithms.", campus_graded).
Proof. reflexivity. Qed.

Example scenario_unknown_course :
  DataStore.add_grade "S1" "C2" "B" campus_enrolled
  = (DataStore.course_not_found, campus_enrolled).
Proof. reflexivity. Qed.

Example scenario_unknown_student :
  DataStore.enroll "S9" "C1" campus = (DataStore.student_not_found, campus).
Proof. reflexivity. Qed.

Example scenario_document :
  Codec.to_json campus_graded =
  JDict [("students",
          JDict [("S1", JDict [("name", JStr "Alia"); ("age", JInt 20);
                               ("address", JStr "Dhaka"); ("student_id", JStr "S1");
                               ("grades", JDict [("C1", JStr "A")]);
                               ("courses", JList [JStr "C1"])])]);
         ("courses",
          JDict [("C1", JDict [("course_name", JStr "Algorithms");
                               ("course_code", JStr "C1");
                               ("instructor", JStr "Dr. X");
                               ("students", JList [JStr "S1"])])])].
Proof. reflexivity. Qed.

(** Collections that the document leaves out are read as empty. *)
Example scenario_defaults :
  Codec.from_json
    (JDict [("students",
             JDict [("S1", JDict [("name", JStr "Alia"); ("age", JInt 20);
                                  ("address", JStr "Dhaka");
                                  ("student_id", JStr "S1")])])])
  = Return (Some (Trace.run [Trace.AddStudent alia])).
Proof. reflexivity. Qed.

End Scenarios.

(** ** Invariants of reachable stores *)

Section Reachability.

Lemma run_snoc ops o :
  Trace.run (ops ++ [o]) = Trace.apply o (Trace.run ops).
Proof. unfold Trace.run. rewrite foldl_app. reflexivity. Qed.

(** Induction over the calls that built a store. *)
Lemma reachable_by_inv (P : Trace.op → Prop) (I : DataStore.t → Prop) :
  I DataStore.empty →
  (∀ ds o, I ds → P o → I (Trace.apply o ds)) →
  ∀ ds, Trace.reachable_by P ds → I ds.
Proof.
  intros Hempty Hstep ds (ops & Hops & ->).
  induction ops as [|o ops IH] using rev_ind; [exact Hempty|].
  apply Forall_app in Hops as [Hops Ho].
  rewrite run_snoc. apply Hstep; [auto|].
  inversion Ho; assumption.
Qed.

Lemma run_reachable_by (P : Trace.op → Prop) ops :
  Forall P ops → Trace.reachable_by P (Trace.run ops).
Proof. intros H. exists ops. split; [exact H | reflexivity]. Qed.

Lemma reachable_by_weaken (P Q : Trace.op → Prop) ds :
  (∀ o, P o → Q o) → Trace.reachable_by P ds → Trace.reachable_by Q ds.
Proof.
  intros HPQ (ops & Hops & ->). exists ops. split; [|reflexivity].
  eapply Forall_impl; eauto.
Qed.

(** *** Graded only if enrolled *)

Lemma grades_within_courses_step o ds :
  Trace.consistent_record o → grades_within_courses ds →
  grades_within_courses (Trace.apply o ds).
Proof.
  intros Ho Hds. destruct o as [st|co|sid cc|sid cc g]; cbn.
  - unfold DataStore.add_student. case_decide; [exact Hds|].
    intros k s. cbn. rewrite lookup_insert. case_decide.
    + intros [= <-]. exact Ho.
    + apply Hds.
  - unfold DataStore.add_course. case_decide; exact Hds.
  - unfold DataStore.enroll, DataStore.get_student, DataStore.get_course.
    destruct (DataStore.students ds !! sid) as [s|] eqn:Hs; [|exact Hds].
    destruct (DataStore.courses ds !! cc) as [c|]; [|exact Hds].
    intros k s'. cbn. rewrite lookup_insert. case_decide; [|apply Hds].
    intros [= <-] cc' Hg. apply enroll_course_elem. left.
    destruct (enroll_course_frame cc s) as (_ & _ & _ & _ & Hgr).
    rewrite Hgr in Hg. exact (Hds _ _ Hs _ Hg).
  - unfold DataStore.add_grade, DataStore.get_student, DataStore.get_course.
    destruct (DataStore.students ds !! sid) as [s|] eqn:Hs; [|exact Hds].
    destruct (DataStore.courses ds !! cc) as [c|]; [|exact Hds].
    case_decide as Hin; [exact Hds|].
    intros k s'. cbn. rewrite lookup_insert. case_decide; [|apply Hds].
    intros [= <-] cc'. cbn. rewrite lookup_insert. case_decide as Hcc.
    + intros _. subst cc'.
      destruct (decide (cc ∈ Student.courses s)); [assumption | contradiction].
    + apply (Hds _ _ Hs).
Qed.

(** *** Referential integrity *)

Lemma linked_empty : linked DataStore.empty.
Proof. split; cbn; intros *; rewrite lookup_empty; discriminate. Qed.

Lemma linked_add_student st ds :
  Student.courses st = [] → linked ds → linked (DataStore.add_student st ds).2.
Proof.
  intros Hnil [Hks Hkc Hf Hb]. unfold DataStore.add_student.
  case_decide as Hin; [split; assumption|].
  apply eq_None_not_Some in Hin. split; cbn.
  - intros k s. rewrite lookup_insert. case_decide.
    + intros [= <-]. congruence.
    + apply Hks.
  - exact Hkc.
  - intros k s cc. rewrite lookup_insert. case_decide.
    + intros [= <-]. rewrite Hnil. intros H'. apply elem_of_nil in H'. contradiction.
    + apply Hf.
  - intros k c sid Hc Hsid. destruct (Hb k c sid Hc Hsid) as (s & Hs & Hk).
    exists s. split; [|exact Hk]. rewrite lookup_insert_ne; [exact Hs|].
    intros Heq. rewrite Heq in Hin. congruence.
Qed.

Lemma linked_add_course co ds :
  Course.students co = [] → linked ds → linked (DataStore.add_course co ds).2.
Proof.
  intros Hnil [Hks Hkc Hf Hb]. unfold DataStore.add_course.
  case_decide as Hin; [split; assumption|].
  apply eq_None_not_Some in Hin. split; cbn.
  - exact Hks.
  - intros k c. rewrite lookup_insert. case_decide.
    + intros [= <-]. congruence.
    + apply Hkc.
  - intros k s cc Hs Hcc. destruct (Hf k s cc Hs Hcc) as (c & Hc & Hk).
    exists c. split; [|exact Hk]. rewrite lookup_insert_ne; [exact Hc|].
    intros Heq. rewrite Heq in Hin. congruence.
  - intros k c sid. rewrite lookup_insert. case_decide.
    + intros [= <-]. rewrite Hnil. intros H'. apply elem_of_nil in H'. contradiction.
    + apply Hb.
Qed.

Lemma linked_enroll sid cc ds :
  linked ds → linked (DataStore.enroll sid cc ds).2.
Proof.
  intros Hl. destruct (DataStore.get_student sid ds) as [s|] eqn:Hs; cycle 1.
  { unfold DataStore.enroll. rewrite Hs. exact Hl. }
  destruct (DataStore.get_course cc ds) as [c|] eqn:Hc; cycle 1.
  { unfold DataStore.enroll. rewrite Hs, Hc. exact Hl. }
  rewrite (enroll_found ds sid cc s c Hs Hc).
  unfold DataStore.get_student, DataStore.get_course in Hs, Hc.
  destruct Hl as [Hks Hkc Hf Hb]. split; cbn.
  - intros k s'. rewrite lookup_insert. case_decide; [|apply Hks].
    intros [= <-]. destruct (enroll_course_frame cc s) as (_ & _ & _ & -> & _).
    subst k. apply (Hks _ _ Hs).
  - intros k c'. rewrite lookup_insert. case_decide; [|apply Hkc].
    intros [= <-]. destruct (add_student_frame sid c) as (_ & -> & _).
    subst k. apply (Hkc _ _ Hc).
  - intros k s' cc' Hs' Hcc'.
    assert (Hold : ∃ s0, DataStore.students ds !! k = Some s0 ∧
              (cc' ∈ Student.courses s0 ∨ (k = sid ∧ cc' = cc))).
    { rewrite lookup_insert in Hs'. case_decide as Hk.
      - injection Hs' as <-. subst k. exists s. split; [exact Hs|].
        apply enroll_course_elem in Hcc'. tauto.
      - exists s'. auto. }
    destruct Hold as (s0 & Hs0 & [Hin | [-> ->]]).
    + destruct (Hf k s0 cc' Hs0 Hin) as (c0 & Hc0 & Hk0).
      rewrite lookup_insert. case_decide as Hcc.
      * subst cc'. eexists. split; [reflexivity|].
        apply add_student_elem. left. congruence.
      * exists c0. auto.
    + rewrite lookup_insert_eq. eexists. split; [reflexivity|].
      apply add_student_students.
  - intros k c' sid' Hc' Hsid'.
    assert (Hold : ∃ c0, DataStore.courses ds !! k = Some c0 ∧
              (sid' ∈ Course.students c0 ∨ (k = cc ∧ sid' = sid))).
    { rewrite lookup_insert in Hc'. case_decide as Hk.
      - injection Hc' as <-. subst k. exists c. split; [exact Hc|].
        apply add_student_elem in Hsid'. tauto.
      - exists c'. auto. }
    destruct Hold as (c0 & Hc0 & [Hin | [-> ->]]).
    + destruct (Hb k c0 sid' Hc0 Hin) as (s0 & Hs0 & Hk0).
      rewrite lookup_insert. case_decide as Hsid.
      * subst sid'. eexists. split; [reflexivity|].
        apply enroll_course_elem. left. congruence.
      * exists s0. auto.
    + rewrite lookup_insert_eq. eexists. split; [reflexivity|].
      apply enroll_course_courses.
Qed.

Lemma linked_add_grade sid cc grade ds :
  linked ds → linked (DataStore.add_grade sid cc grade ds).2.
Proof.
  intros Hl. unfold DataStore.add_grade, DataStore.get_student, DataStore.get_course.
  destruct (DataStore.students ds !! sid) as [s|] eqn:Hs; [|exact Hl].
  destruct (DataStore.courses ds !! cc) as [c|]; [|exact Hl].
  case_decide as Hin; [exact Hl|].
  destruct Hl as [Hks Hkc Hf Hb]. split; cbn.
  - intros k s'. rewrite lookup_insert. case_decide; [|apply Hks].
    intros [= <-]. subst k. apply (Hks _ _ Hs).
  - exact Hkc.
  - intros k s' cc'. rewrite lookup_insert. case_decide; [|apply Hf].
    intros [= <-]. subst k. cbn. apply (Hf _ _ _ Hs).
  - intros k c' sid' Hc' Hsid'.
    destruct (Hb k c' sid' Hc' Hsid') as (s0 & Hs0 & Hk0).
    rewrite lookup_insert. case_decide as Hsid; [|exists s0; auto].
    subst sid'. eexists. split; [reflexivity|]. cbn. congruence.
Qed.

Lemma linked_step o ds :
  Trace.unlinked o → linked ds → linked (Trace.apply o ds).
Proof.
  destruct o; cbn; intros Ho Hl;
    auto using linked_add_student, linked_add_course, linked_enroll,
               linked_add_grade.
Qed.

Lemma linked_symmetric ds : linked ds → enrollment_symmetric ds.
Proof.
  intros [Hks Hkc Hf Hb] sid s cc c Hs Hc.
  rewrite (Hks _ _ Hs), (Hkc _ _ Hc). split.
  - intros Hin. destruct (Hf _ _ _ Hs Hin) as (c' & Hc' & Hk). congruence.
  - intros Hin. destruct (Hb _ _ _ Hc Hin) as (s' & Hs' & Hk). congruence.
Qed.

End Reachability.

(** ** The codec *)

Section RoundTrip.

(** Storing the items of a dictionary one after the other, as the loops
    of [from_json] and the typed reading of [grades] do. *)
Lemma store_items_map_to_list {A} (m : gmap string A) :
  foldl (λ acc kv, <[kv.1 := kv.2]> acc) ∅ (map_to_list m) = m.
Proof.
  assert (Hrev : ∀ l : list (string * A),
    foldl (λ acc kv, <[kv.1 := kv.2]> acc) (∅ : gmap string A) l
    = list_to_map (reverse l)).
  { induction l as [|x l IH] using rev_ind; [reflexivity|].
    rewrite foldl_app, reverse_app, IH. destruct x; reflexivity. }
  rewrite Hrev. rewrite <- (list_to_map_to_list m) at 2.
  symmetry. apply list_to_map_proper.
  - apply NoDup_fst_map_to_list.
  - symmetry. apply reverse_Permutation.
Qed.

Lemma str_list_encoded (l : list string) :
  Typed.str_list (JList (JStr <$> l)) = Some l.
Proof.
  cbn. induction l as [|x l IH]; [reflexivity|].
  cbn. cbn in IH. rewrite IH. reflexivity.
Qed.

Lemma str_dict_encoded (m : gmap string string) :
  Typed.str_dict (JDict (prod_map id JStr <$> map_to_list m)) = Some m.
Proof.
  cbn. rewrite <- (store_items_map_to_list m) at 2.
  generalize (∅ : gmap string string). induction (map_to_list m) as [|[k v] l IH];
    intros m0; [reflexivity|].
  cbn. apply IH.
Qed.

Lemma rebuild_encoded {A} (encode : A → json)
    (build : json → outcome (option A)) (m : gmap string A) :
  (∀ a, build (encode a) = Return (Some a)) →
  Codec.rebuild build (prod_map id encode <$> map_to_list m) (Some ∅)
  = Return (Some m).
Proof.
  intros Hbuild. rewrite <- (store_items_map_to_list m) at 2.
  generalize (∅ : gmap string A). induction (map_to_list m) as [|[k v] l IH];
    intros m0; [reflexivity|].
  cbn. rewrite Hbuild. cbn. apply IH.
Qed.

Lemma student_of_json_to_json (s : Student.t) :
  Codec.student_of_json (Codec.student_to_json s) = Return (Some s).
Proof.
  unfold Codec.student_of_json, Codec.student_to_json.
  cbn -[Typed.str_dict Typed.str_list].
  rewrite str_dict_encoded, str_list_encoded. destruct s; reflexivity.
Qed.

Lemma course_of_json_to_json (c : Course.t) :
  Codec.course_of_json (Codec.course_to_json c) = Return (Some c).
Proof.
  unfold Codec.course_of_json, Codec.course_to_json.
  cbn -[Typed.str_list].
  rewrite str_list_encoded. destruct c; reflexivity.
Qed.

(** Serializing and reading back gives the store itself, for every store. *)
Lemma from_json_to_json (ds : DataStore.t) :
  Codec.from_json (Codec.to_json ds) = Return (Some ds).
Proof.
  unfold Codec.from_json, Codec.to_json.
  cbn -[Codec.rebuild].
  rewrite (rebuild_encoded _ _ _ student_of_json_to_json). cbn -[Codec.rebuild].
  rewrite (rebuild_encoded _ _ _ course_of_json_to_json). cbn.
  destruct ds; reflexivity.
Qed.

(** C1. For every store built from the empty store by [add_student],
    [add_course], [enroll] and [add_grade], [from_json] of [to_json]
    raises nothing and returns a store equal to the original one: the
    same students and courses under the same keys with the same field
    values (lists in the same order, mappings with the same items). *)
Theorem round_trip ds :
  Trace.reachable ds → Codec.from_json (Codec.to_json ds) = Return (Some ds).
Proof. intros _. apply from_json_to_json. Qed.

Lemma round_trip_witness :
  Codec.from_json (Codec.to_json campus_graded) = Return (Some campus_graded).
Proof.
  apply round_trip. apply run_reachable_by. repeat constructor.
Defined.

End RoundTrip.

(** ** Documents with missing fields *)

Section MissingFields.

Lemma first_missing_Some required fields f :
  first_missing required fields = Some f →
  f ∈ required ∧ Py.lookup f fields = None.
Proof.
  induction required as [|r required IH]; cbn; [discriminate|].
  destruct (Py.lookup r fields) eqn:Hr.
  - intros H. destruct (IH H). split; [apply elem_of_cons; right|]; assumption.
  - intros [= <-]. split; [apply elem_of_cons; left; reflexivity | exact Hr].
Qed.

Lemma first_missing_is_Some required fields f :
  f ∈ required → Py.lookup f fields = None →
  is_Some (first_missing required fields).
Proof.
  induction required as [|r required IH]; intros Hin Hf.
  - apply elem_of_nil in Hin. contradiction.
  - cbn. destruct (Py.lookup r fields) eqn:Hr; [|eexists; reflexivity].
    apply elem_of_cons in Hin as [-> | Hin]; [congruence | auto].
Qed.

Lemma first_lacking_Some required items k f :
  first_lacking required items = Some (k, f) →
  ∃ v, (k, v) ∈ items ∧ lacks required v f.
Proof.
  induction items as [|[k' v] items IH]; cbn; [discriminate|].
  assert (Hrest : first_lacking required items = Some (k, f) →
                  ∃ v0, (k, v0) ∈ (k', v) :: items ∧ lacks required v0 f).
  { intros H. destruct (IH H) as (v0 & Hin & Hl). exists v0.
    split; [apply elem_of_cons; right|]; assumption. }
  destruct v as [| | | | | |fields]; try exact Hrest.
  destruct (first_missing required fields) as [f'|] eqn:Hf; [|exact Hrest].
  intros [= <- <-]. exists (JDict fields).
  split; [apply elem_of_cons; left; reflexivity|].
  cbn. apply first_missing_Some. exact Hf.
Qed.

Lemma first_lacking_is_Some required items k v f :
  (k, v) ∈ items → lacks required v f →
  is_Some (first_lacking required items).
Proof.
  intros Hin Hl. induction items as [|[k' v'] items IH].
  - apply elem_of_nil in Hin. contradiction.
  - apply elem_of_cons in Hin as [[= <- <-] | Hin].
    + destruct v as [| | | | | |fields]; try contradiction.
      destruct Hl as [Hreq Hnone]. cbn.
      destruct (first_missing_is_Some required fields f Hreq Hnone) as [f' ->].
      eexists. reflexivity.
    + cbn. destruct v' as [| | | | | |fields]; auto.
      destruct (first_missing required fields); [eexists; reflexivity | auto].
Qed.

(** *** The loop of [from_json] over entries built by a constructor call
    whose first subscripts are the required fields. *)
Section Loop.

Context {A : Type} (required : list string).
Variable build : json → outcome (option A).

Hypothesis build_missing : ∀ fields f,
  first_missing required fields = Some f →
  build (JDict fields) = Raise (KeyError f).
Hypothesis build_complete : ∀ fields,
  first_missing required fields = None →
  ∃ r, build (JDict fields) = Return r.

Lemma rebuild_first_lacking items k f target :
  Forall (λ kv, is_dict kv.2 = true) items →
  first_lacking required items = Some (k, f) →
  Codec.rebuild build items target = Raise (KeyError f).
Proof.
  intros Hall. revert target.
  induction Hall as [|[k' v] items Hv Hall IH]; intros target; cbn;
    [discriminate|].
  destruct v as [| | | | | |fields]; try discriminate Hv.
  destruct (first_missing required fields) as [f'|] eqn:Hf.
  - intros [= <- <-]. rewrite (build_missing _ _ Hf). reflexivity.
  - intros Hrest. destruct (build_complete _ Hf) as [r ->]. cbn.
    apply IH. exact Hrest.
Qed.

Lemma rebuild_none_lacking items target :
  Forall (λ kv, is_dict kv.2 = true) items →
  first_lacking required items = None →
  ∃ r, Codec.rebuild build items target = Return r.
Proof.
  intros Hall. revert target.
  induction Hall as [|[k' v] items Hv Hall IH]; intros target; cbn;
    [eexists; reflexivity|].
  destruct v as [| | | | | |fields]; try discriminate Hv.
  destruct (first_missing required fields) as [f'|] eqn:Hf; [discriminate|].
  intros Hrest. destruct (build_complete _ Hf) as [r ->]. cbn.
  apply IH. exact Hrest.
Qed.

Lemma rebuild_raises items k v f target :
  (k, v) ∈ items → lacks required v f →
  ∃ e, Codec.rebuild build items target = Raise e.
Proof.
  intros Hin Hl. revert target.
  induction items as [|[k' v'] items IH]; intros target.
  - apply elem_of_nil in Hin. contradiction.
  - cbn. destruct (build v') as [x|e] eqn:Hb; [|eexists; reflexivity].
    cbn. apply elem_of_cons in Hin as [[= <- <-] | Hin]; [|auto].
    destruct v as [| | | | | |fields]; try contradiction.
    destruct Hl as [Hreq Hnone].
    destruct (first_missing_is_Some required fields f Hreq Hnone) as [f' Hf'].
    rewrite (build_missing _ _ Hf') in Hb. discriminate Hb.
Qed.

End Loop.

Lemma student_of_json_missing fields f :
  first_missing student_required fields = Some f →
  Codec.student_of_json (JDict fields) = Raise (KeyError f).
Proof.
  unfold Codec.student_of_json. cbn.
  repeat (match goal with
          | |- context [Py.lookup ?k fields] =>
            destruct (Py.lookup k fields); cbn
          end; try (intros [= <-]; reflexivity)).
Qed.

Lemma student_of_json_complete fields :
  first_missing student_required fields = None →
  ∃ r, Codec.student_of_json (JDict fields) = Return r.
Proof.
  unfold Codec.student_of_json. cbn.
  repeat (match goal with
          | |- context [Py.lookup ?k fields] =>
            destruct (Py.lookup k fields); cbn
          end; try discriminate).
  all: intros _; eexists; reflexivity.
Qed.

Lemma course_of_json_missing fields f :
  first_missing course_required fields = Some f →
  Codec.course_of_json (JDict fields) = Raise (KeyError f).
Proof.
  unfold Codec.course_of_json. cbn.
  repeat (match goal with
          | |- context [Py.lookup ?k fields] =>
            destruct (Py.lookup k fields); cbn
          end; try (intros [= <-]; reflexivity)).
Qed.

Lemma course_of_json_complete fields :
  first_missing course_required fields = None →
  ∃ r, Codec.course_of_json (JDict fields) = Return r.
Proof.
  unfold Codec.course_of_json. cbn.
  repeat (match goal with
          | |- context [Py.lookup ?k fields] =>
            destruct (Py.lookup k fields); cbn
          end; try discriminate).
  all: intros _; eexists; reflexivity.
Qed.

End MissingFields.

Section Deserialization.

Lemma shaped_section top section :
  section_shaped top section →
  Py.items (default (JDict []) (Py.lookup section top))
    = Return (section_items (JDict top) section) ∧
  Forall (λ kv, is_dict kv.2 = true) (section_items (JDict top) section).
Proof.
  unfold section_shaped, section_items.
  destruct (Py.lookup section top) as [[| | | | | |entries]|]; cbn;
    try contradiction; auto.
Qed.

Lemma lacking_section top section required k v f :
  (k, v) ∈ section_items (JDict top) section → lacks required v f →
  Py.items (default (JDict []) (Py.lookup section top))
    = Return (section_items (JDict top) section).
Proof.
  unfold section_items.
  destruct (Py.lookup section top) as [[| | | | | |entries]|]; cbn;
    intros Hin; try (apply elem_of_nil in Hin; contradiction); reflexivity.
Qed.

Lemma from_json_dict top :
  Codec.from_json (JDict top) =
    (sitems ← Py.items (default (JDict []) (Py.lookup "students" top));
     students ← Codec.rebuild Codec.student_of_json sitems (Some ∅);
     citems ← Py.items (default (JDict []) (Py.lookup "courses" top));
     courses ← Codec.rebuild Codec.course_of_json citems (Some ∅);
     Return (s ← students; c ← courses; Some (DataStore.mk s c))).
Proof. reflexivity. Qed.

(** On a document of the expected shape [from_json] stops at the first
    entry that lacks a required field and raises [KeyError] with the
    first such field. *)
Lemma from_json_first_failure data k f :
  shaped data → first_failure data = Some (k, f) →
  Codec.from_json data = Raise (KeyError f).
Proof.
  destruct data as [| | | | | |top]; try contradiction.
  intros [Hs Hc]. unfold first_failure.
  destruct (shaped_section top "students" Hs) as [Hsi Hsd].
  destruct (shaped_section top "courses" Hc) as [Hci Hcd].
  rewrite from_json_dict, Hsi. cbn [mbind outcome_bind].
  destruct (first_lacking student_required (section_items (JDict top) "students"))
    as [[k' f']|] eqn:Hfl.
  - intros [= -> ->].
    rewrite (rebuild_first_lacking student_required Codec.student_of_json
               student_of_json_missing student_of_json_complete _ k f _ Hsd Hfl).
    reflexivity.
  - intros Hfc.
    destruct (rebuild_none_lacking student_required Codec.student_of_json
                student_of_json_complete _ (Some ∅) Hsd Hfl) as [r ->].
    cbn [mbind outcome_bind]. rewrite Hci. cbn [mbind outcome_bind].
    rewrite (rebuild_first_lacking course_required Codec.course_of_json
               course_of_json_missing course_of_json_complete _ k f _ Hcd Hfc).
    reflexivity.
Qed.

(** Whatever the shape of the rest of the document, an entry that lacks
    a required field keeps [from_json] from returning. *)
Lemma from_json_raises data :
  has_lacking_entry data → ∃ e, Codec.from_json data = Raise e.
Proof.
  intros Hlack.
  destruct data as [| | | | | |top];
    try (destruct Hlack as [(k & v & f & Hin & _)|(k & v & f & Hin & _)];
         apply elem_of_nil in Hin; contradiction).
  rewrite from_json_dict.
  destruct Hlack as [(k & v & f & Hin & Hl)|(k & v & f & Hin & Hl)].
  - rewrite (lacking_section _ _ _ _ _ _ Hin Hl). cbn [mbind outcome_bind].
    destruct (rebuild_raises student_required Codec.student_of_json
                student_of_json_missing _ k v f (Some ∅) Hin Hl) as [e ->].
    exists e. reflexivity.
  - destruct (Py.items (default (JDict []) (Py.lookup "students" top)))
      as [sitems|e]; [|exists e; reflexivity].
    cbn [mbind outcome_bind].
    destruct (Codec.rebuild Codec.student_of_json sitems (Some ∅))
      as [students|e]; [|exists e; reflexivity].
    cbn [mbind outcome_bind].
    rewrite (lacking_section _ _ _ _ _ _ Hin Hl). cbn [mbind outcome_bind].
    destruct (rebuild_raises course_required Codec.course_of_json
                course_of_json_missing _ k v f (Some ∅) Hin Hl) as [e ->].
    exists e. reflexivity.
Qed.

Lemma first_failure_is_Some data :
  has_lacking_entry data → is_Some (first_failure data).
Proof.
  unfold first_failure.
  intros [(k & v & f & Hin & Hl)|(k & v & f & Hin & Hl)].
  - destruct (first_lacking_is_Some _ _ _ _ _ Hin Hl) as [kf ->].
    eexists. reflexivity.
  - destruct (first_lacking student_required _); [eexists; reflexivity|].
    exact (first_lacking_is_Some _ _ _ _ _ Hin Hl).
Qed.

Lemma first_failure_lacks data k f :
  first_failure data = Some (k, f) →
  (∃ v, (k, v) ∈ section_items data "students" ∧ lacks student_required v f) ∨
  (∃ v, (k, v) ∈ section_items data "courses" ∧ lacks course_required v f).
Proof.
  unfold first_failure.
  destruct (first_lacking student_required _) as [kf|] eqn:Hs.
  - intros [= ->]. left. apply first_lacking_Some. exact Hs.
  - intros Hc. right. apply first_lacking_Some. exact Hc.
Qed.

Lemma nameless_lacks : has_lacking_entry nameless.
Proof.
  left. exists "S1", (JDict [("age", JInt 20); ("address", JStr "Dhaka");
                            ("student_id", JStr "S1")]), "name".
  split; [apply list_elem_of_singleton; reflexivity|].
  split; [apply elem_of_cons; left; reflexivity | reflexivity].
Defined.

Lemma nameless_shaped : shaped nameless.
Proof. split; cbn; [repeat constructor | exact I]. Defined.

(** C7, as stated, fails: for the student entry "S1" without a name,
    [from_json] raises [KeyError('name')], which carries the field and
    nothing about the entry it was read from. *)
Lemma missing_field_counterexample :
  has_lacking_entry nameless ∧
  Codec.from_json nameless = Raise (KeyError "name") ∧
  ¬ (∃ e, Codec.from_json nameless = Raise e ∧
          "name" ∈ exn_args e ∧ "S1" ∈ exn_args e).
Proof.
  split; [|split].
  - exact nameless_lacks.
  - reflexivity.
  - intros (e & He & _ & Hkey). cbv in He. injection He as <-.
    cbn in Hkey. apply list_elem_of_singleton in Hkey. discriminate Hkey.
Qed.

(** C7, amended. For every document in which some student or course
    entry is an object that lacks a required field, [from_json] does not
    return: it raises an exception.  When the document is an object
    whose sections are objects of objects, the exception is [KeyError]
    and its only argument is the first lacking required field of the
    first such entry (students are read before courses); it says nothing
    about the key of that entry. *)
Theorem from_json_missing_field data :
  has_lacking_entry data →
  (∃ e, Codec.from_json data = Raise e) ∧
  (shaped data →
   ∃ k f, first_failure data = Some (k, f) ∧
     Codec.from_json data = Raise (KeyError f) ∧
     exn_args (KeyError f) = [f] ∧
     ((∃ v, (k, v) ∈ section_items data "students" ∧ lacks student_required v f) ∨
      (∃ v, (k, v) ∈ section_items data "courses" ∧ lacks course_required v f))).
Proof.
  intros Hlack. split; [apply from_json_raises; exact Hlack|].
  intros Hshape. destruct (first_failure_is_Some data Hlack) as [[k f] Hff].
  exists k, f. split; [exact Hff|]. split; [|split].
  - apply (from_json_first_failure data k f Hshape Hff).
  - reflexivity.
  - apply first_failure_lacks. exact Hff.
Qed.

Lemma from_json_missing_field_witness :
  (∃ e, Codec.from_json nameless = Raise e) ∧
  ∃ k f, first_failure nameless = Some (k, f) ∧
    Codec.from_json nameless = Raise (KeyError f) ∧
    exn_args (KeyError f) = [f] ∧
    ((∃ v, (k, v) ∈ section_items nameless "students" ∧
           lacks student_required v f) ∨
     (∃ v, (k, v) ∈ section_items nameless "courses" ∧
           lacks course_required v f)).
Proof.
  destruct (from_json_missing_field nameless nameless_lacks) as [Hraise Hkey].
  split; [exact Hraise | exact (Hkey nameless_shaped)].
Defined.

End Deserialization.

(** * Further properties of the store *)

Section MoreOperations.

Implicit Types (ds : DataStore.t) (sid cc grade : string).

(** X1. [add_course] on a code already in the store returns [False] and
    changes nothing, the course stored before staying in place; on a new
    code it stores the record under that code, returns [True], leaves the
    students alone, and [get_course] returns the record that was added. *)
Theorem add_course_spec ds (course : Course.t) :
  (∀ old, DataStore.get_course (Course.course_code course) ds = Some old →
     DataStore.add_course course ds = (false, ds) ∧
     DataStore.get_course (Course.course_code course)
       (DataStore.add_course course ds).2 = Some old) ∧
  (DataStore.get_course (Course.course_code course) ds = None →
     ∃ ds', DataStore.add_course course ds = (true, ds') ∧
       DataStore.courses ds'
         = <[Course.course_code course := course]> (DataStore.courses ds) ∧
       DataStore.students ds' = DataStore.students ds ∧
       DataStore.get_course (Course.course_code course) ds' = Some course).
Proof.
  unfold DataStore.add_course, DataStore.get_course. split.
  - intros old Hold. case_decide as Hin.
    + split; [reflexivity | exact Hold].
    + destruct Hin. rewrite Hold. eexists. reflexivity.
  - intros Hnone. case_decide as Hin.
    + destruct Hin as [x Hx]. congruence.
    + eexists. repeat split; cbn. apply lookup_insert_eq.
Qed.

Lemma add_course_spec_witness :
  (DataStore.add_course (Course.mk "Anatomy" "C1" "Dr. Y" ["S7"]) campus
     = (false, campus) ∧
   DataStore.get_course "C1"
     (DataStore.add_course (Course.mk "Anatomy" "C1" "Dr. Y" ["S7"]) campus).2
     = Some algorithms) ∧
  (∃ ds', DataStore.add_course algorithms DataStore.empty = (true, ds') ∧
     DataStore.courses ds' = <[ "C1" := algorithms ]> ∅ ∧
     DataStore.students ds' = ∅ ∧
     DataStore.get_course "C1" ds' = Some algorithms).
Proof.
  split.
  - apply (proj1 (add_course_spec campus (Course.mk "Anatomy" "C1" "Dr. Y" ["S7"]))
             algorithms).
    reflexivity.
  - apply (proj2 (add_course_spec DataStore.empty algorithms)). reflexivity.
Defined.

(** X2. With the student in the store and the course code unknown, [enroll]
    and [add_grade] both return the course-not-found error and leave the
    store alone; [add_grade] does so even when the student's own list
    holds the code, the course being looked up before the list. *)
Theorem course_checked_second ds sid cc grade s :
  DataStore.get_student sid ds = Some s →
  DataStore.get_course cc ds = None →
  DataStore.enroll sid cc ds = (DataStore.course_not_found, ds) ∧
  DataStore.add_grade sid cc grade ds = (DataStore.course_not_found, ds) ∧
  DataStore.course_not_found ≠ DataStore.not_enrolled.
Proof.
  intros Hs Hc. unfold DataStore.enroll, DataStore.add_grade. rewrite Hs, Hc.
  repeat split. discriminate.
Qed.

Lemma course_checked_second_witness :
  DataStore.enroll "S1" "C1" (Trace.run [Trace.AddStudent prelinked])
    = (DataStore.course_not_found, Trace.run [Trace.AddStudent prelinked]) ∧
  DataStore.add_grade "S1" "C1" "A" (Trace.run [Trace.AddStudent prelinked])
    = (DataStore.course_not_found, Trace.run [Trace.AddStudent prelinked]) ∧
  DataStore.course_not_found ≠ DataStore.not_enrolled.
Proof.
  apply (course_checked_second (Trace.run [Trace.AddStudent prelinked])
           "S1" "C1" "A" prelinked); reflexivity.
Defined.

(** X3. [enroll] returns one of the error strings exactly when the student or
    the course is not in the store, and whenever it does the store it
    leaves is the store it was given. *)
Theorem enroll_error_atomic ds sid cc :
  ((DataStore.enroll sid cc ds).1 ∈ error_results ↔
     DataStore.get_student sid ds = None ∨ DataStore.get_course cc ds = None) ∧
  ((DataStore.enroll sid cc ds).1 ∈ error_results →
     (DataStore.enroll sid cc ds).2 = ds).
Proof.
  unfold DataStore.enroll.
  destruct (DataStore.get_student sid ds) as [s|].
  - destruct (DataStore.get_course cc ds) as [c|]; cbn [fst snd].
    + split.
      * split; [|intros [|]; discriminate].
        intros H. apply enrolled_message_not_error in H. contradiction.
      * intros H. apply enrolled_message_not_error in H. contradiction.
    + split; [|reflexivity]. split; [auto|]. intros _.
      unfold error_results. rewrite !elem_of_cons. auto.
  - cbn [fst snd]. split; [|reflexivity]. split; [auto|]. intros _.
    unfold error_results. rewrite !elem_of_cons. auto.
Qed.

Lemma enroll_error_atomic_witness :
  (DataStore.enroll "S9" "C1" campus).2 = campus ∧
  (DataStore.enroll "S1" "C9" campus).2 = campus.
Proof.
  split.
  - apply (proj2 (enroll_error_atomic campus "S9" "C1")).
    apply (bool_decide_unpack _). vm_compute. exact I.
  - apply (proj2 (enroll_error_atomic campus "S1" "C9")).
    apply (bool_decide_unpack _). vm_compute. exact I.
Defined.

End MoreOperations.

Section EnrolmentAndGrades.

Implicit Types (ds : DataStore.t) (sid cc grade : string).

(** What [add_grade] does when the records exist and the student is
    enrolled. *)
Lemma add_grade_found ds sid cc grade s c :
  DataStore.get_student sid ds = Some s →
  DataStore.get_course cc ds = Some c →
  cc ∈ Student.courses s →
  DataStore.add_grade sid cc grade ds =
    (DataStore.graded_message grade s c,
     {| DataStore.students :=
          <[sid := Student.add_grade cc grade s]> (DataStore.students ds);
        DataStore.courses := DataStore.courses ds |}).
Proof.
  intros Hs Hc Hin. unfold DataStore.add_grade. rewrite Hs, Hc.
  case_decide; [contradiction | reflexivity].
Qed.



(** X6. Grading the same pair again replaces the grade: the second call
    returns what it would have returned without the first, message and
    store alike, whether the calls succeed or fail. *)
Theorem add_grade_overwrites ds sid cc grade1 grade2 :
  DataStore.add_grade sid cc grade2 (DataStore.add_grade sid cc grade1 ds).2
  = DataStore.add_grade sid cc grade2 ds.
Proof.
  unfold DataStore.add_grade at 2.
  destruct (DataStore.get_student sid ds) as [s|] eqn:Hs; [|reflexivity].
  destruct (DataStore.get_course cc ds) as [c|] eqn:Hc; [|reflexivity].
  case_decide as Hin; [reflexivity|]. cbn [snd].
  assert (Hin' : cc ∈ Student.courses s).
  { destruct (decide (cc ∈ Student.courses s)); [assumption | contradiction]. }
  rewrite (add_grade_found ds sid cc grade2 s c Hs Hc Hin').
  erewrite add_grade_found; cycle 1.
  { unfold DataStore.get_student. cbn. apply lookup_insert_eq. }
  { exact Hc. }
  { exact Hin'. }
  cbn [DataStore.students DataStore.courses]. rewrite insert_insert_eq.
  unfold Student.add_grade. cbn. rewrite insert_insert_eq. reflexivity.
Qed.

End EnrolmentAndGrades.

Section MoreInvariants.

(** *** Records under their own identifier *)

Lemma keyed_step o ds : keyed ds → keyed (Trace.apply o ds).
Proof.
  intros [Hks Hkc]. destruct o as [st|co|sid cc|sid cc g]; cbn.
  - unfold DataStore.add_student. case_decide; [split; assumption|].
    split; [|exact Hkc]. intros k s. cbn. rewrite lookup_insert.
    case_decide; [|apply Hks]. intros [= <-]. congruence.
  - unfold DataStore.add_course. case_decide; [split; assumption|].
    split; [exact Hks|]. intros k c. cbn. rewrite lookup_insert.
    case_decide; [|apply Hkc]. intros [= <-]. congruence.
  - unfold DataStore.enroll, DataStore.get_student, DataStore.get_course.
    destruct (DataStore.students ds !! sid) as [s|] eqn:Hs; [|split; assumption].
    destruct (DataStore.courses ds !! cc) as [c|] eqn:Hc; [|split; assumption].
    split; cbn.
    + intros k s'. rewrite lookup_insert. case_decide; [|apply Hks].
      intros [= <-]. destruct (enroll_course_frame cc s) as (_ & _ & _ & -> & _).
      subst k. apply (Hks _ _ Hs).
    + intros k c'. rewrite lookup_insert. case_decide; [|apply Hkc].
      intros [= <-]. destruct (add_student_frame sid c) as (_ & -> & _).
      subst k. apply (Hkc _ _ Hc).
  - unfold DataStore.add_grade, DataStore.get_student, DataStore.get_course.
    destruct (DataStore.students ds !! sid) as [s|] eqn:Hs; [|split; assumption].
    destruct (DataStore.courses ds !! cc) as [c|]; [|split; assumption].
    case_decide; [split; assumption|]. split; [|exact Hkc].
    intros k s'. cbn. rewrite lookup_insert. case_decide; [|apply Hks].
    intros [= <-]. subst k. apply (Hks _ _ Hs).
Qed.

(** X7. In every store built from the empty store by [add_student],
    [add_course], [enroll] and [add_grade], whatever records are handed
    in, a student is stored under its own [student_id] and a course under
    its own [course_code]. *)
Theorem reachable_keyed ds : Trace.reachable ds → keyed ds.
Proof.
  revert ds. apply reachable_by_inv.
  - split; intros k x; cbn; rewrite lookup_empty; discriminate.
  - intros ds o Hk _. apply keyed_step. exact Hk.
Qed.

Lemma reachable_keyed_witness :
  keyed (Trace.run [Trace.AddStudent prelinked; Trace.AddStudent impostor;
                    Trace.AddCourse algorithms; Trace.Enroll "S1" "C1"]).
Proof. apply reachable_keyed. apply run_reachable_by. repeat constructor. Defined.

(** *** Lists without repetition *)

Lemma enroll_course_NoDup cc s :
  NoDup (Student.courses s) → NoDup (Student.courses (Student.enroll_course cc s)).
Proof.
  intros Hnd. unfold Student.enroll_course. case_decide as Hin; [|exact Hnd].
  cbn. apply NoDup_app. split; [exact Hnd|]. split; [|apply NoDup_singleton].
  intros x Hx Hx'. apply list_elem_of_singleton in Hx'. congruence.
Qed.

Lemma add_student_NoDup sid c :
  NoDup (Course.students c) → NoDup (Course.students (Course.add_student sid c)).
Proof.
  intros Hnd. unfold Course.add_student. case_decide as Hin; [|exact Hnd].
  cbn. apply NoDup_app. split; [exact Hnd|]. split; [|apply NoDup_singleton].
  intros x Hx Hx'. apply list_elem_of_singleton in Hx'. congruence.
Qed.

Lemma duplicate_free_step o ds :
  duplicate_free o → duplicate_free_lists ds →
  duplicate_free_lists (Trace.apply o ds).
Proof.
  intros Ho [Hs Hc]. destruct o as [st|co|sid cc|sid cc g]; cbn.
  - unfold DataStore.add_student. case_decide; [split; assumption|].
    split; [|exact Hc]. intros k s. cbn. rewrite lookup_insert.
    case_decide; [|apply Hs]. intros [= <-]. exact Ho.
  - unfold DataStore.add_course. case_decide; [split; assumption|].
    split; [exact Hs|]. intros k c. cbn. rewrite lookup_insert.
    case_decide; [|apply Hc]. intros [= <-]. exact Ho.
  - unfold DataStore.enroll, DataStore.get_student, DataStore.get_course.
    destruct (DataStore.students ds !! sid) as [s|] eqn:Hsid; [|split; assumption].
    destruct (DataStore.courses ds !! cc) as [c|] eqn:Hcc; [|split; assumption].
    split; cbn.
    + intros k s'. rewrite lookup_insert. case_decide; [|apply Hs].
      intros [= <-]. apply enroll_course_NoDup. exact (Hs _ _ Hsid).
    + intros k c'. rewrite lookup_insert. case_decide; [|apply Hc].
      intros [= <-]. apply add_student_NoDup. exact (Hc _ _ Hcc).
  - unfold DataStore.add_grade, DataStore.get_student, DataStore.get_course.
    destruct (DataStore.students ds !! sid) as [s|] eqn:Hsid; [|split; assumption].
    destruct (DataStore.courses ds !! cc) as [c|]; [|split; assumption].
    case_decide; [split; assumption|]. split; [|exact Hc].
    intros k s'. cbn. rewrite lookup_insert. case_decide; [|apply Hs].
    intros [= <-]. cbn. exact (Hs _ _ Hsid).
Qed.

(** X8. When the records handed to [add_student] and [add_course] have lists
    without repeated entries (empty lists, for instance), no course list
    and no student list of a store built by the four operations repeats an
    entry: enrolling again never duplicates a link. *)
Theorem reachable_duplicate_free ds :
  Trace.reachable_by duplicate_free ds → duplicate_free_lists ds.
Proof.
  revert ds. apply reachable_by_inv.
  - split; intros k x; cbn; rewrite lookup_empty; discriminate.
  - intros ds o Hd Ho. apply duplicate_free_step; assumption.
Qed.

Lemma reachable_duplicate_free_witness :
  duplicate_free_lists
    (Trace.run [Trace.AddStudent alia; Trace.AddCourse algorithms;
                Trace.Enroll "S1" "C1"; Trace.Enroll "S1" "C1"]).
Proof.
  apply reachable_duplicate_free. apply run_reachable_by.
  repeat constructor.
Defined.

(** *** Graded courses are courses of the store *)

Lemma graded_courses_exist_step o ds :
  ungraded o → graded_courses_exist ds → graded_courses_exist (Trace.apply o ds).
Proof.
  intros Ho Hg. destruct o as [st|co|sid cc|sid cc g]; cbn.
  - unfold DataStore.add_student. case_decide; [exact Hg|].
    intros k s cc'. cbn. rewrite lookup_insert. case_decide; [|apply Hg].
    intros [= <-]. cbn in Ho. rewrite Ho, lookup_empty. intros [x Hx]. discriminate.
  - unfold DataStore.add_course. case_decide; [exact Hg|].
    intros k s cc' Hs Hgr. cbn in *. rewrite lookup_insert. case_decide; [eauto|].
    exact (Hg _ _ _ Hs Hgr).
  - unfold DataStore.enroll, DataStore.get_student, DataStore.get_course.
    destruct (DataStore.students ds !! sid) as [s|] eqn:Hsid; [|exact Hg].
    destruct (DataStore.courses ds !! cc) as [c|] eqn:Hcc; [|exact Hg].
    intros k s' cc' Hs' Hgr. cbn in *.
    assert (Hold : ∃ s0, DataStore.students ds !! k = Some s0 ∧
                         is_Some (Student.grades s0 !! cc')).
    { rewrite lookup_insert in Hs'. case_decide; [|eauto].
      injection Hs' as <-. subst k. exists s. split; [exact Hsid|].
      destruct (enroll_course_frame cc s) as (_ & _ & _ & _ & Heq).
      rewrite Heq in Hgr. exact Hgr. }
    destruct Hold as (s0 & Hs0 & Hgr0).
    rewrite lookup_insert. case_decide; [eauto|].
    exact (Hg _ _ _ Hs0 Hgr0).
  - unfold DataStore.add_grade, DataStore.get_student, DataStore.get_course.
    destruct (DataStore.students ds !! sid) as [s|] eqn:Hsid; [|exact Hg].
    destruct (DataStore.courses ds !! cc) as [c|] eqn:Hcc; [|exact Hg].
    case_decide; [exact Hg|].
    intros k s' cc'. cbn. rewrite lookup_insert. case_decide; [|apply Hg].
    intros [= <-]. subst k. cbn. rewrite lookup_insert. case_decide.
    + intros _. subst cc'. eauto.
    + apply (Hg _ _ _ Hsid).
Qed.

(** X9. When student records are added without grades, every course code that
    is a key of a student's grades in a store built by the four operations
    is the code of a course of that store. *)
Theorem reachable_graded_courses_exist ds :
  Trace.reachable_by ungraded ds → graded_courses_exist ds.
Proof.
  revert ds. apply reachable_by_inv.
  - intros k s cc. cbn. rewrite lookup_empty. discriminate.
  - intros ds o Hd Ho. apply graded_courses_exist_step; assumption.
Qed.

Lemma reachable_graded_courses_exist_witness :
  graded_courses_exist campus_graded.
Proof.
  apply reachable_graded_courses_exist. apply run_reachable_by.
  repeat constructor.
Defined.

End MoreInvariants.

Section Persistence.

Lemma student_extends_refl s : student_extends s s.
Proof. repeat split; auto. Qed.

Lemma course_extends_refl c : course_extends c c.
Proof. repeat split; auto. Qed.

Lemma student_extends_trans s1 s2 s3 :
  student_extends s1 s2 → student_extends s2 s3 → student_extends s1 s3.
Proof.
  intros (? & ? & ? & ? & Hp & Hg) (? & ? & ? & ? & Hp' & Hg').
  repeat split; try congruence; [etrans; eassumption | auto].
Qed.

Lemma course_extends_trans c1 c2 c3 :
  course_extends c1 c2 → course_extends c2 c3 → course_extends c1 c3.
Proof.
  intros (? & ? & ? & Hp) (? & ? & ? & Hp').
  repeat split; try congruence. etrans; eassumption.
Qed.

Lemma store_extends_refl ds : store_extends ds ds.
Proof.
  split; intros k x Hx; exists x;
    (split; [exact Hx | apply student_extends_refl || apply course_extends_refl]).
Qed.

Lemma store_extends_trans ds1 ds2 ds3 :
  store_extends ds1 ds2 → store_extends ds2 ds3 → store_extends ds1 ds3.
Proof.
  intros [Hs Hc] [Hs' Hc']. split.
  - intros k s1 H1. destruct (Hs _ _ H1) as (s2 & H2 & He).
    destruct (Hs' _ _ H2) as (s3 & H3 & He'). exists s3.
    split; [exact H3 | eapply student_extends_trans; eassumption].
  - intros k c1 H1. destruct (Hc _ _ H1) as (c2 & H2 & He).
    destruct (Hc' _ _ H2) as (c3 & H3 & He'). exists c3.
    split; [exact H3 | eapply course_extends_trans; eassumption].
Qed.

Lemma enroll_course_extends cc s : student_extends s (Student.enroll_course cc s).
Proof.
  unfold Student.enroll_course. case_decide; [|apply student_extends_refl].
  repeat split; cbn; auto. apply prefix_app_r. reflexivity.
Qed.

Lemma add_student_extends sid c : course_extends c (Course.add_student sid c).
Proof.
  unfold Course.add_student. case_decide; [|apply course_extends_refl].
  repeat split; cbn. apply prefix_app_r. reflexivity.
Qed.

Lemma add_grade_extends cc g s : student_extends s (Student.add_grade cc g s).
Proof.
  repeat split; cbn; auto. intros cc' Hg. rewrite lookup_insert.
  case_decide; [eauto | exact Hg].
Qed.

(** One call keeps and extends every record. *)
Lemma apply_extends o ds : store_extends ds (Trace.apply o ds).
Proof.
  destruct o as [st|co|sid cc|sid cc g]; cbn.
  - unfold DataStore.add_student. case_decide as Hin; [apply store_extends_refl|].
    apply eq_None_not_Some in Hin. split; cbn.
    + intros k s Hs. exists s. split; [|apply student_extends_refl].
      rewrite lookup_insert_ne; [exact Hs | congruence].
    + intros k c Hc. exists c. split; [exact Hc | apply course_extends_refl].
  - unfold DataStore.add_course. case_decide as Hin; [apply store_extends_refl|].
    apply eq_None_not_Some in Hin. split; cbn.
    + intros k s Hs. exists s. split; [exact Hs | apply student_extends_refl].
    + intros k c Hc. exists c. split; [|apply course_extends_refl].
      rewrite lookup_insert_ne; [exact Hc | congruence].
  - unfold DataStore.enroll, DataStore.get_student, DataStore.get_course.
    destruct (DataStore.students ds !! sid) as [s|] eqn:Hsid;
      [|apply store_extends_refl].
    destruct (DataStore.courses ds !! cc) as [c|] eqn:Hcc;
      [|apply store_extends_refl].
    split; cbn.
    + intros k s0 Hs0. rewrite lookup_insert. case_decide.
      * subst k. eexists. split; [reflexivity|].
        assert (s0 = s) as -> by congruence. apply enroll_course_extends.
      * exists s0. split; [exact Hs0 | apply student_extends_refl].
    + intros k c0 Hc0. rewrite lookup_insert. case_decide.
      * subst k. eexists. split; [reflexivity|].
        assert (c0 = c) as -> by congruence. apply add_student_extends.
      * exists c0. split; [exact Hc0 | apply course_extends_refl].
  - unfold DataStore.add_grade, DataStore.get_student, DataStore.get_course.
    destruct (DataStore.students ds !! sid) as [s|] eqn:Hsid;
      [|apply store_extends_refl].
    destruct (DataStore.courses ds !! cc) as [c|] eqn:Hcc;
      [|apply store_extends_refl].
    case_decide; [apply store_extends_refl|]. split; cbn.
    + intros k s0 Hs0. rewrite lookup_insert. case_decide.
      * subst k. eexists. split; [reflexivity|].
        assert (s0 = s) as -> by congruence. apply add_grade_extends.
      * exists s0. split; [exact Hs0 | apply student_extends_refl].
    + intros k c0 Hc0. exists c0. split; [exact Hc0 | apply course_extends_refl].
Qed.

(** X10. No sequence of calls of the four operations removes a record, moves
    it to another key or changes its name, age, address, identifier, course
    name, course code or instructor; course lists and student lists are
    only continued at their end, and a course that has a grade keeps one. *)
Theorem later_calls_extend ops more :
  store_extends (Trace.run ops) (Trace.run (ops ++ more)).
Proof.
  induction more as [|o more IH] using rev_ind.
  - rewrite app_nil_r. apply store_extends_refl.
  - rewrite app_assoc, run_snoc.
    eapply store_extends_trans; [exact IH | apply apply_extends].
Qed.

End Persistence.

(** * Further properties of the codec *)

Section MoreCodec.

(** X11. [from_json] expects objects: anything else as the document, or as
    its ["students"] section, or as its ["courses"] section when there are
    no students, makes [.get] or [.items] fail with [AttributeError]. *)
Theorem from_json_attribute_error :
  (∀ data, is_dict data = false → Codec.from_json data = Raise AttributeError) ∧
  (∀ top v, Py.lookup "students" top = Some v → is_dict v = false →
     Codec.from_json (JDict top) = Raise AttributeError) ∧
  (∀ top v, Py.lookup "students" top = None →
     Py.lookup "courses" top = Some v → is_dict v = false →
     Codec.from_json (JDict top) = Raise AttributeError).
Proof.
  split; [|split].
  - intros data Hd. destruct data; try discriminate Hd; reflexivity.
  - intros top v Hv Hd. rewrite from_json_dict, Hv.
    destruct v; try discriminate Hd; reflexivity.
  - intros top v Hs Hv Hd. rewrite from_json_dict, Hs, Hv.
    destruct v; try discriminate Hd; reflexivity.
Qed.

Lemma from_json_attribute_error_witness :
  Codec.from_json (JList []) = Raise AttributeError ∧
  Codec.from_json (JDict [("students", JNull)]) = Raise AttributeError ∧
  Codec.from_json (JDict [("courses", JList [JStr "C1"])]) = Raise AttributeError.
Proof.
  destruct from_json_attribute_error as (H1 & H2 & H3).
  split; [|split].
  - apply H1. reflexivity.
  - apply (H2 _ JNull); reflexivity.
  - apply (H3 _ (JList [JStr "C1"])); reflexivity.
Defined.

(** X12. A document without the two sections, the empty object [{}] for one,
    is read as the empty store. *)
Theorem from_json_missing_sections top :
  Py.lookup "students" top = None → Py.lookup "courses" top = None →
  Codec.from_json (JDict top) = Return (Some DataStore.empty).
Proof. intros Hs Hc. rewrite from_json_dict, Hs, Hc. reflexivity. Qed.

Lemma from_json_missing_sections_witness :
  Codec.from_json (JDict []) = Return (Some DataStore.empty) ∧
  Codec.from_json (JDict [("version", JInt 2)]) = Return (Some DataStore.empty).
Proof.
  split.
  - apply (from_json_missing_sections []); reflexivity.
  - apply (from_json_missing_sections [("version", JInt 2)]); reflexivity.
Defined.

(** X13. An entry that has its required fields and leaves out the collections
    is read as a record with empty collections: a student without
    ["grades"] and ["courses"] gets an empty mapping and an empty list, a
    course without ["students"] an empty list.  Fields the constructor
    does not ask for are ignored. *)
Theorem optional_collections_default fields :
  (∀ n a ad i,
     Py.lookup "name" fields = Some (JStr n) →
     Py.lookup "age" fields = Some (JInt a) →
     Py.lookup "address" fields = Some (JStr ad) →
     Py.lookup "student_id" fields = Some (JStr i) →
     Py.lookup "grades" fields = None → Py.lookup "courses" fields = None →
     Codec.student_of_json (JDict fields) = Return (Some (Student.mk n a ad i ∅ []))) ∧
  (∀ n cc i,
     Py.lookup "course_name" fields = Some (JStr n) →
     Py.lookup "course_code" fields = Some (JStr cc) →
     Py.lookup "instructor" fields = Some (JStr i) →
     Py.lookup "students" fields = None →
     Codec.course_of_json (JDict fields) = Return (Some (Course.mk n cc i []))).
Proof.
  split.
  - intros n a ad i Hn Ha Had Hi Hg Hc.
    unfold Codec.student_of_json, Py.getitem, Py.get.
    rewrite Hn, Ha, Had, Hi, Hg, Hc. reflexivity.
  - intros n cc i Hn Hcc Hi Hs.
    unfold Codec.course_of_json, Py.getitem, Py.get.
    rewrite Hn, Hcc, Hi, Hs. reflexivity.
Qed.

Lemma optional_collections_default_witness :
  Codec.student_of_json
    (JDict [("student_id", JStr "S1"); ("name", JStr "Alia"); ("age", JInt 20);
            ("address", JStr "Dhaka"); ("email", JNull)])
    = Return (Some alia) ∧
  Codec.course_of_json
    (JDict [("course_name", JStr "Algorithms"); ("course_code", JStr "C1");
            ("instructor", JStr "Dr. X")])
    = Return (Some algorithms).
Proof.
  split.
  - apply (proj1 (optional_collections_default _)); reflexivity.
  - apply (proj2 (optional_collections_default _)); reflexivity.
Defined.

(** Storing the items of any list one after the other. *)
Lemma store_items_lookup {A} (l : list (string * A)) k x :
  NoDup l.*1 →
  (k, x) ∈ l ↔ foldl (λ acc kv, <[kv.1 := kv.2]> acc) (∅ : gmap string A) l !! k = Some x.
Proof.
  intros Hnd.
  assert (Hrev : ∀ l : list (string * A),
    foldl (λ acc kv, <[kv.1 := kv.2]> acc) (∅ : gmap string A) l
    = list_to_map (reverse l)).
  { clear. induction l as [|y l IH] using rev_ind; [reflexivity|].
    rewrite foldl_app, reverse_app, IH. destruct y; reflexivity. }
  rewrite Hrev. rewrite <- elem_of_list_to_map.
  - rewrite elem_of_reverse. reflexivity.
  - rewrite fmap_reverse, reverse_Permutation. exact Hnd.
Qed.

Lemma rebuild_encoded_list {A} (encode : A → json)
    (build : json → outcome (option A)) (l : list (string * A)) :
  (∀ a, build (encode a) = Return (Some a)) →
  Codec.rebuild build (prod_map id encode <$> l) (Some ∅)
  = Return (Some (foldl (λ acc kv, <[kv.1 := kv.2]> acc) ∅ l)).
Proof.
  intros Hbuild. generalize (∅ : gmap string A).
  induction l as [|[k v] l IH]; intros m0; [reflexivity|].
  cbn. rewrite Hbuild. cbn. apply IH.
Qed.

(** X14. [from_json] files every entry under the key it has in the document
    and never compares that key with the [student_id] or [course_code]
    inside the entry: for entries under distinct keys, the store read back
    maps exactly those keys to exactly those records. *)
Theorem from_json_keeps_document_key
    (ls : list (string * Student.t)) (lc : list (string * Course.t)) :
  NoDup ls.*1 → NoDup lc.*1 →
  ∃ ds,
    Codec.from_json
      (JDict [("students", JDict (prod_map id Codec.student_to_json <$> ls));
              ("courses", JDict (prod_map id Codec.course_to_json <$> lc))])
      = Return (Some ds) ∧
    (∀ k s, (k, s) ∈ ls ↔ DataStore.students ds !! k = Some s) ∧
    (∀ k c, (k, c) ∈ lc ↔ DataStore.courses ds !! k = Some c).
Proof.
  intros Hs Hc. eexists. split; [|split].
  - rewrite from_json_dict. cbn -[Codec.rebuild].
    rewrite (rebuild_encoded_list _ _ ls student_of_json_to_json).
    cbn -[Codec.rebuild].
    rewrite (rebuild_encoded_list _ _ lc course_of_json_to_json).
    reflexivity.
  - intros k s. cbn. apply store_items_lookup. exact Hs.
  - intros k c. cbn. apply store_items_lookup. exact Hc.
Qed.

Lemma from_json_keeps_document_key_witness :
  ∃ ds,
    Codec.from_json
      (JDict [("students",
               JDict (prod_map id Codec.student_to_json <$> [("X9", alia)]));
              ("courses",
               JDict (prod_map id Codec.course_to_json <$> [("Y7", algorithms)]))])
      = Return (Some ds) ∧
    (∀ k s, (k, s) ∈ [("X9", alia)] ↔ DataStore.students ds !! k = Some s) ∧
    (∀ k c, (k, c) ∈ [("Y7", algorithms)] ↔ DataStore.courses ds !! k = Some c).
Proof.
  apply (from_json_keeps_document_key [("X9", alia)] [("Y7", algorithms)]);
    cbn; apply NoDup_singleton.
Defined.

(** X15. Two different stores never serialize to the same document. *)
Theorem to_json_injective ds1 ds2 :
  ds1 ≠ ds2 → Codec.to_json ds1 ≠ Codec.to_json ds2.
Proof.
  intros Hne Heq. apply Hne.
  pose proof (from_json_to_json ds1) as H1.
  rewrite Heq, from_json_to_json in H1. congruence.
Qed.

Lemma to_json_injective_witness :
  Codec.to_json campus ≠ Codec.to_json campus_enrolled.
Proof.
  apply to_json_injective. intros Heq.
  apply (f_equal (λ ds, Student.courses <$> DataStore.students ds !! "S1")) in Heq.
  vm_compute in Heq. discriminate Heq.
Defined.

End MoreCodec.

(** * The command-line helpers *)

Section PromptInt.

Context {builtins : Builtins}.

(** The recursion is the loop of the source: read and strip a line, return
    its value when it is all digits, else complain and start over. *)
Lemma prompt_int_unfold prompt_text :
  ∀ c, prompt_int prompt_text c =
    (raw ← str_strip <$> input prompt_text;
     if str_isdigit raw then int_or_raise raw
     else print invalid_number;; prompt_int prompt_text) c.
Proof.
  intros [lines written]. unfold prompt_int, mbind, cli_bind, fmap, cli_fmap, input.
  cbn. destruct lines as [|line rest]; cbn; [reflexivity|].
  destruct (str_isdigit (str_strip line)); reflexivity.
Qed.

(** X16. [prompt_int] skips the lines that are not all digits once
    stripped, writing the prompt and the complaint for each.  At the first
    line that is all digits it leaves the loop with [int] of the stripped
    line, the lines after it unread: the value is returned, or
    [ValueError] is raised when [int] refuses the digits. *)
Theorem prompt_int_skips_invalid prompt_text bad good rest written :
  Forall (λ line, str_isdigit (str_strip line) = false) bad →
  str_isdigit (str_strip good) = true →
  prompt_int prompt_text {| stdin := bad ++ good :: rest; stdout := written |}
  = match int_of_str (str_strip good) with
    | Some n =>
      Done n {| stdin := rest;
                stdout := written ++ refusals prompt_text bad
                            ++ [Prompted prompt_text] |}
    | None =>
      Failed ValueError
        {| stdin := rest;
           stdout := written ++ refusals prompt_text bad
                       ++ [Prompted prompt_text] |}
    end.
Proof.
  intros Hbad Hgood. unfold prompt_int. cbn [stdin stdout].
  revert written. induction Hbad as [|line bad Hline Hbad IH]; intros written.
  - cbn. rewrite Hgood. unfold int_or_raise.
    destruct (int_of_str (str_strip good)); reflexivity.
  - cbn. rewrite Hline, IH. unfold refusals. cbn.
    rewrite <- !app_assoc. reflexivity.
Qed.

(** X17. When no line left is all digits, [prompt_int] complains about each
    and fails with [EOFError] at the prompt that finds no line. *)
Theorem prompt_int_end_of_input prompt_text lines written :
  Forall (λ line, str_isdigit (str_strip line) = false) lines →
  prompt_int prompt_text {| stdin := lines; stdout := written |}
  = Failed EOFError
      {| stdin := [];
         stdout := written ++ refusals prompt_text lines ++ [Prompted prompt_text] |}.
Proof.
  intros Hbad. unfold prompt_int. cbn [stdin stdout].
  revert written. induction Hbad as [|line bad Hline Hbad IH]; intros written.
  - reflexivity.
  - cbn. rewrite Hline, IH. unfold refusals. cbn.
    rewrite <- !app_assoc. reflexivity.
Qed.

End PromptInt.

Lemma prompt_int_skips_invalid_witness :
  prompt_int (builtins := limited_builtins) "Enter Age: "
    {| stdin := ["twenty"; ""; " -3"; " 20 "; "Dhaka"]; stdout := [] |}
  = Done 20%Z
      {| stdin := ["Dhaka"];
         stdout := [] ++ refusals "Enter Age: " ["twenty"; ""; " -3"]
                     ++ [Prompted "Enter Age: "] |} ∧
  prompt_int (builtins := limited_builtins) "Enter Age: "
    {| stdin := ["old"; long_number; "Dhaka"]; stdout := [] |}
  = Failed ValueError
      {| stdin := ["Dhaka"];
         stdout := [] ++ refusals "Enter Age: " ["old"]
                     ++ [Prompted "Enter Age: "] |}.
Proof.
  split.
  - etransitivity.
    + apply (prompt_int_skips_invalid (builtins := limited_builtins)
               "Enter Age: " ["twenty"; ""; " -3"] " 20 " ["Dhaka"] []).
      * repeat constructor.
      * reflexivity.
    + reflexivity.
  - etransitivity.
    + apply (prompt_int_skips_invalid (builtins := limited_builtins)
               "Enter Age: " ["old"] long_number ["Dhaka"] []).
      * repeat constructor.
      * vm_compute. reflexivity.
    + vm_compute. reflexivity.
Defined.

Lemma prompt_int_end_of_input_witness :
  prompt_int (builtins := ascii_builtins) "Enter Age: "
    {| stdin := ["old"; "4 2"]; stdout := [] |}
  = Failed EOFError
      {| stdin := [];
         stdout := [] ++ refusals "Enter Age: " ["old"; "4 2"]
                     ++ [Prompted "Enter Age: "] |}.
Proof.
  apply (prompt_int_end_of_input (builtins := ascii_builtins)
           "Enter Age: " ["old"; "4 2"] []).
  repeat constructor.
Defined.

Section Handlers.

Context {builtins : Builtins}.

Lemma cli_bind_Done {A B} (m : cli A) (f : A → cli B) c b c2 :
  (m ≫= f) c = Done b c2 → ∃ a c1, m c = Done a c1 ∧ f a c1 = Done b c2.
Proof.
  unfold mbind, cli_bind. destruct (m c) as [a c1|e c1]; [eauto | discriminate].
Qed.

Lemma cli_print_Done {A} line (a : A) c b c2 :
  (print line;; mret a) c = Done b c2 → b = a.
Proof. unfold mbind, cli_bind, print, mret, cli_ret. cbn. congruence. Qed.

Lemma truthy_nonempty s : truthy s = true → s ≠ "".
Proof.
  unfold truthy. intros H ->. discriminate H.
Qed.

Lemma reachable_by_snoc (P : Trace.op → Prop) o ds :
  Trace.reachable_by P ds → P o → Trace.reachable_by P (Trace.apply o ds).
Proof.
  intros (ops & Hops & ->) Ho. exists (ops ++ [o])%list. split.
  - apply Forall_app. split; [exact Hops | repeat constructor; exact Ho].
  - rewrite run_snoc. reflexivity.
Qed.

(** The store a helper returns is the store it was given, or that store
    after one call of a public operation with arguments as typed in. *)
Lemma add_new_student_cli_effect ds c ds' c' :
  add_new_student_cli ds c = Done ds' c' →
  ds' = ds ∨ ∃ s, entered (Trace.AddStudent s) ∧ ds' = (DataStore.add_student s ds).2.
Proof.
  unfold add_new_student_cli. intros H.
  apply cli_bind_Done in H as (name & c1 & _ & H).
  apply cli_bind_Done in H as (age & c2 & _ & H).
  apply cli_bind_Done in H as (address & c3 & _ & H).
  apply cli_bind_Done in H as (student_id & c4 & _ & H).
  destruct (forallb truthy [name; address; student_id]) eqn:Hall; cbn [negb] in H.
  - right. exists (Student.mk name age address student_id ∅ []).
    cbn in Hall. apply andb_prop in Hall as [Hn Hall].
    apply andb_prop in Hall as [Ha Hall]. apply andb_prop in Hall as [Hi _].
    split; [cbn; auto using truthy_nonempty|].
    destruct (DataStore.add_student _ ds) as [[|] ds1];
      apply cli_print_Done in H; subst ds'; reflexivity.
  - left. apply cli_print_Done in H. exact H.
Qed.

Lemma add_new_course_cli_effect ds c ds' c' :
  add_new_course_cli ds c = Done ds' c' →
  ds' = ds ∨ ∃ co, entered (Trace.AddCourse co) ∧ ds' = (DataStore.add_course co ds).2.
Proof.
  unfold add_new_course_cli. intros H.
  apply cli_bind_Done in H as (course_name & c1 & _ & H).
  apply cli_bind_Done in H as (course_code & c2 & _ & H).
  apply cli_bind_Done in H as (instructor & c3 & _ & H).
  destruct (forallb truthy [course_name; course_code; instructor]) eqn:Hall;
    cbn [negb] in H.
  - right. exists (Course.mk course_name course_code instructor []).
    cbn in Hall. apply andb_prop in Hall as [Hn Hall].
    apply andb_prop in Hall as [Ha Hall]. apply andb_prop in Hall as [Hi _].
    split; [cbn; auto using truthy_nonempty|].
    destruct (DataStore.add_course _ ds) as [[|] ds1];
      apply cli_print_Done in H; subst ds'; reflexivity.
  - left. apply cli_print_Done in H. exact H.
Qed.

Lemma enroll_student_in_course_cli_effect ds c ds' c' :
  enroll_student_in_course_cli ds c = Done ds' c' →
  ∃ sid cc, ds' = (DataStore.enroll sid cc ds).2.
Proof.
  unfold enroll_student_in_course_cli. intros H.
  apply cli_bind_Done in H as (sid & c1 & _ & H).
  apply cli_bind_Done in H as (cc & c2 & _ & H).
  exists sid, cc. destruct (DataStore.enroll sid cc ds) as [msg ds1].
  apply cli_print_Done in H. subst ds'. reflexivity.
Qed.

Lemma add_grade_for_student_cli_effect ds c ds' c' :
  add_grade_for_student_cli ds c = Done ds' c' →
  ds' = ds ∨ ∃ sid cc g, g ≠ "" ∧ ds' = (DataStore.add_grade sid cc g ds).2.
Proof.
  unfold add_grade_for_student_cli. intros H.
  apply cli_bind_Done in H as (sid & c1 & _ & H).
  apply cli_bind_Done in H as (cc & c2 & _ & H).
  apply cli_bind_Done in H as (g & c3 & _ & H).
  destruct (truthy g) eqn:Hg; cbn [negb] in H.
  - right. exists sid, cc, g. split; [apply truthy_nonempty; exact Hg|].
    destruct (DataStore.add_grade sid cc g ds) as [msg ds1].
    apply cli_print_Done in H. subst ds'. reflexivity.
  - left. apply cli_print_Done in H. exact H.
Qed.

Lemma helper_effect ds c ds' c' :
  helper_returned ds c ds' c' →
  ds' = ds ∨ ∃ o, entered o ∧ ds' = Trace.apply o ds.
Proof.
  intros [H|[H|[H|H]]].
  - apply add_new_student_cli_effect in H as [->|(s & He & ->)]; [auto|].
    right. exists (Trace.AddStudent s). auto.
  - apply add_new_course_cli_effect in H as [->|(co & He & ->)]; [auto|].
    right. exists (Trace.AddCourse co). auto.
  - apply enroll_student_in_course_cli_effect in H as (sid & cc & ->).
    right. exists (Trace.Enroll sid cc). split; [exact I | reflexivity].
  - apply add_grade_for_student_cli_effect in H as [->|(sid & cc & g & He & ->)];
      [auto|].
    right. exists (Trace.AddGrade sid cc g). auto.
Qed.

End Handlers.

Section HelperProperties.

Context {builtins : Builtins}.

(** X18. Whatever is typed, the store a helper hands back is the store it got
    or that store after one call of the operation the helper is for:
    [add_student] with a record that has the typed name, address and
    identifier, none of them empty, and no grades or courses yet;
    [add_course] with a record that has the typed fields, none empty, and
    no students yet; [enroll]; [add_grade] with a grade that is not
    empty. *)
Theorem cli_helpers_call_operations ds c ds' c' :
  (add_new_student_cli ds c = Done ds' c' →
     ds' = ds ∨
     ∃ s, entered (Trace.AddStudent s) ∧ ds' = (DataStore.add_student s ds).2) ∧
  (add_new_course_cli ds c = Done ds' c' →
     ds' = ds ∨
     ∃ co, entered (Trace.AddCourse co) ∧ ds' = (DataStore.add_course co ds).2) ∧
  (enroll_student_in_course_cli ds c = Done ds' c' →
     ∃ sid cc, ds' = (DataStore.enroll sid cc ds).2) ∧
  (add_grade_for_student_cli ds c = Done ds' c' →
     ds' = ds ∨
     ∃ sid cc g, g ≠ "" ∧ ds' = (DataStore.add_grade sid cc g ds).2).
Proof.
  split; [|split; [|split]].
  - apply add_new_student_cli_effect.
  - apply add_new_course_cli_effect.
  - apply enroll_student_in_course_cli_effect.
  - apply add_grade_for_student_cli_effect.
Qed.

Lemma entered_unlinked o : entered o → Trace.unlinked o.
Proof. destruct o; cbn; tauto. Qed.

Lemma entered_consistent_record o : entered o → Trace.consistent_record o.
Proof.
  destruct o as [s| | |]; cbn; try tauto.
  intros (_ & _ & _ & Hg & _) cc. rewrite Hg, lookup_empty.
  intros [x Hx]. discriminate Hx.
Qed.

(** X19. A store built by calls as the helpers make them stays one when a
    helper has run on it, with every enrolment link in both directions and
    every graded course among the student's courses: the four helpers
    cannot break the store they are given. *)
Theorem cli_keeps_store_consistent ds c ds' c' :
  Trace.reachable_by entered ds →
  helper_returned ds c ds' c' →
  Trace.reachable_by entered ds' ∧
  enrollment_symmetric ds' ∧ grades_within_courses ds'.
Proof.
  intros Hreach Hret.
  assert (Hreach' : Trace.reachable_by entered ds').
  { apply helper_effect in Hret as [-> | (o & Ho & ->)]; [exact Hreach|].
    apply reachable_by_snoc; assumption. }
  split; [exact Hreach'|]. split.
  - apply linked_symmetric. revert Hreach'. apply reachable_by_inv.
    + apply linked_empty.
    + intros ds0 o Hl Ho. apply linked_step; [apply entered_unlinked|]; assumption.
  - revert Hreach'. apply reachable_by_inv.
    + intros sid s. cbn. rewrite lookup_empty. discriminate.
    + intros ds0 o Hg Ho.
      apply grades_within_courses_step; [apply entered_consistent_record|];
        assumption.
Qed.

Lemma filled_in_step o ds : entered o → filled_in ds → filled_in (Trace.apply o ds).
Proof.
  intros Ho [Hs Hc]. destruct o as [st|co|sid cc|sid cc g]; cbn.
  - unfold DataStore.add_student. case_decide; [split; assumption|].
    split; [|exact Hc]. intros k s. cbn. rewrite lookup_insert.
    case_decide; [|apply Hs]. intros [= <-].
    destruct Ho as (Hn & Ha & Hi & Hg & _). repeat split; try assumption.
    intros cc g. rewrite Hg, lookup_empty. discriminate.
  - unfold DataStore.add_course. case_decide; [split; assumption|].
    split; [exact Hs|]. intros k c. cbn. rewrite lookup_insert.
    case_decide; [|apply Hc]. intros [= <-]. cbn in Ho. tauto.
  - unfold DataStore.enroll, DataStore.get_student, DataStore.get_course.
    destruct (DataStore.students ds !! sid) as [s|] eqn:Hsid; [|split; assumption].
    destruct (DataStore.courses ds !! cc) as [c|] eqn:Hcc; [|split; assumption].
    split; cbn.
    + intros k s'. rewrite lookup_insert. case_decide; [|apply Hs].
      intros [= <-].
      destruct (enroll_course_frame cc s) as (-> & _ & -> & -> & ->).
      exact (Hs _ _ Hsid).
    + intros k c'. rewrite lookup_insert. case_decide; [|apply Hc].
      intros [= <-]. destruct (add_student_frame sid c) as (-> & -> & ->).
      exact (Hc _ _ Hcc).
  - unfold DataStore.add_grade, DataStore.get_student, DataStore.get_course.
    destruct (DataStore.students ds !! sid) as [s|] eqn:Hsid; [|split; assumption].
    destruct (DataStore.courses ds !! cc) as [c|]; [|split; assumption].
    case_decide; [split; assumption|]. split; [|exact Hc].
    intros k s'. cbn. rewrite lookup_insert. case_decide; [|apply Hs].
    intros [= <-]. cbn. destruct (Hs _ _ Hsid) as (Hn & Ha & Hi & Hg).
    repeat split; try assumption.
    intros cc' g'. rewrite lookup_insert. case_decide.
    + intros [= <-]. exact Ho.
    + apply Hg.
Qed.

(** X20. In a store built by calls as the helpers make them, no student has an
    empty name, address or identifier, no course an empty name, code or
    instructor, and no grade is the empty string. *)
Theorem entered_filled_in ds : Trace.reachable_by entered ds → filled_in ds.
Proof.
  revert ds. apply reachable_by_inv.
  - split; intros k x; cbn; rewrite lookup_empty; discriminate.
  - intros ds o Hf Ho. apply filled_in_step; assumption.
Qed.

End HelperProperties.

Lemma cli_helpers_call_operations_witness :
  (Trace.run [Trace.AddStudent alia] = DataStore.empty ∨
   ∃ s, entered (Trace.AddStudent s) ∧
        Trace.run [Trace.AddStudent alia]
        = (DataStore.add_student s DataStore.empty).2) ∧
  (Trace.run [Trace.AddCourse algorithms] = DataStore.empty ∨
   ∃ co, entered (Trace.AddCourse co) ∧
         Trace.run [Trace.AddCourse algorithms]
         = (DataStore.add_course co DataStore.empty).2) ∧
  (∃ sid cc, campus_enrolled = (DataStore.enroll sid cc campus).2) ∧
  (campus_graded = campus_enrolled ∨
   ∃ sid cc g, g ≠ "" ∧ campus_graded = (DataStore.add_grade sid cc g campus_enrolled).2).
Proof.
  split; [|split; [|split]].
  - apply (proj1 (cli_helpers_call_operations (builtins := ascii_builtins)
             DataStore.empty
             {| stdin := [" Alia"; "20"; "Dhaka "; "S1"]; stdout := [] |}
             (Trace.run [Trace.AddStudent alia])
             {| stdin := [];
                stdout := [Prompted "Enter Name: "; Prompted "Enter Age: ";
                           Prompted "Enter Address: "; Prompted "Enter Student ID: ";
                           Printed "Student Alia (ID: S1) added successfully."] |})).
    reflexivity.
  - apply (proj1 (proj2 (cli_helpers_call_operations (builtins := ascii_builtins)
             DataStore.empty
             {| stdin := ["Algorithms"; "C1"; "Dr. X"]; stdout := [] |}
             (Trace.run [Trace.AddCourse algorithms])
             {| stdin := [];
                stdout := [Prompted "Enter Course Name: "; Prompted "Enter Course Code: ";
                           Prompted "Enter Instructor: ";
                           Printed "Course Algorithms (Code: C1) created with instructor Dr. X."] |}))).
    reflexivity.
  - apply (proj1 (proj2 (proj2 (cli_helpers_call_operations (builtins := ascii_builtins)
             campus
             {| stdin := ["S1"; "C1"]; stdout := [] |}
             campus_enrolled
             {| stdin := [];
                stdout := [Prompted "Enter Student ID: "; Prompted "Enter Course Code: ";
                           Printed "Student Alia (ID: S1) enrolled in Algorithms (Code: C1)."] |})))).
    reflexivity.
  - apply (proj2 (proj2 (proj2 (cli_helpers_call_operations (builtins := ascii_builtins)
             campus_enrolled
             {| stdin := ["S1"; "C1"; " A "]; stdout := [] |}
             campus_graded
             {| stdin := [];
                stdout := [Prompted "Enter Student ID: "; Prompted "Enter Course Code: ";
                           Prompted "Enter Grade: ";
                           Printed "Grade A added for Alia in Algorithms."] |})))).
    reflexivity.
Defined.

Lemma cli_keeps_store_consistent_witness :
  Trace.reachable_by entered campus_enrolled ∧
  enrollment_symmetric campus_enrolled ∧ grades_within_courses campus_enrolled.
Proof.
  apply (cli_keeps_store_consistent (builtins := ascii_builtins) campus
           {| stdin := ["S1 "; " C1"]; stdout := [] |}
           campus_enrolled
           {| stdin := [];
              stdout := [Prompted "Enter Student ID: "; Prompted "Enter Course Code: ";
                         Printed "Student Alia (ID: S1) enrolled in Algorithms (Code: C1)."] |}).
  - apply run_reachable_by. repeat constructor; discriminate.
  - right. right. left. reflexivity.
Defined.

Lemma entered_filled_in_witness : filled_in campus_graded.
Proof.
  apply entered_filled_in. apply run_reachable_by.
  repeat constructor; discriminate.
Defined.

(** * Display of a course *)

Section CourseDisplay.

Context {builtins : Builtins}.


Lemma names_of_unknown (lookup : gmap string Student.t) (ids : list string) :
  (∀ sid, sid ∈ ids → lookup !! sid = None) →
  omap (λ sid, Student.name <$> lookup !! sid) ids = [].
Proof.
  induction ids as [|sid ids IH]; intros Hunknown; [reflexivity|].
  cbn. rewrite (Hunknown sid); [|apply elem_of_cons; left; reflexivity].
  cbn. apply IH. intros sid' Hin. apply Hunknown. apply elem_of_cons. right. exact Hin.
Qed.


(** X22. With a lookup that has entries but none for the students of the
    course, [display_course_info] prints [None] for the enrolled students,
    although the course has some: identifiers the lookup does not know are
    dropped, not shown. *)
Theorem display_course_drops_unknown (lookup : gmap string Student.t) c :
  size lookup ≠ 0 →
  (∀ sid, sid ∈ Course.students c → lookup !! sid = None) →
  display_course_info (Some lookup) c
  = [ "Course Information:";
      "Course Name: " +:+ Course.course_name c;
      "Code: " +:+ Course.course_code c;
      "Instructor: " +:+ Course.instructor c;
      "Enrolled Students: None" ].
Proof.
  intros Hsize Hunknown. unfold display_course_info.
  case_decide; [contradiction|]. cbv zeta.
  rewrite (names_of_unknown _ _ Hunknown). reflexivity.
Qed.

End CourseDisplay.


Lemma display_course_drops_unknown_witness :
  display_course_info (Some (DataStore.students campus))
    (Course.mk "Anatomy" "C2" "Dr. Y" ["S7"; "S8"])
  = [ "Course Information:"; "Course Name: Anatomy"; "Code: C2";
      "Instructor: Dr. Y"; "Enrolled Students: None" ].
Proof.
  apply (display_course_drops_unknown (DataStore.students campus)
           (Course.mk "Anatomy" "C2" "Dr. Y" ["S7"; "S8"])).
  - vm_compute. discriminate.
  - intros sid Hin. cbn in Hin.
    apply elem_of_cons in Hin as [-> | Hin]; [reflexivity|].
    apply list_elem_of_singleton in Hin as ->. reflexivity.
Defined.

(** * The store with its objects *)

Section Heap.

Implicit Types (h : Obj.heap) (l : Obj.loc).

Lemma list_at_set_list l l' v h :
  Obj.list_at (Obj.set_list l v h) l' = if decide (l = l') then v else Obj.list_at h l'.
Proof.
  unfold Obj.list_at, Obj.set_list. cbn. rewrite lookup_insert.
  case_decide; reflexivity.
Qed.

Lemma dict_at_set_dict l l' v h :
  Obj.dict_at (Obj.set_dict l v h) l' = if decide (l = l') then v else Obj.dict_at h l'.
Proof.
  unfold Obj.dict_at, Obj.set_dict. cbn. rewrite lookup_insert.
  case_decide; reflexivity.
Qed.

Lemma fresh_list_unused h : Obj.lists h !! fresh (dom (Obj.lists h)) = None.
Proof. apply not_elem_of_dom. apply is_fresh. Qed.


(** *** The entity methods *)

Lemma obj_enroll_course_dicts cc s h :
  Obj.dicts (Obj.Student.enroll_course cc s h) = Obj.dicts h.
Proof. unfold Obj.Student.enroll_course. case_decide; reflexivity. Qed.

Lemma obj_add_student_dicts sid c h :
  Obj.dicts (Obj.Course.add_student sid c h) = Obj.dicts h.
Proof. unfold Obj.Course.add_student. case_decide; reflexivity. Qed.

Lemma obj_enroll_course_elem cc s h l x :
  x ∈ Obj.list_at (Obj.Student.enroll_course cc s h) l ↔
  x ∈ Obj.list_at h l ∨ (l = Obj.Student.courses s ∧ x = cc).
Proof.
  unfold Obj.Student.enroll_course. case_decide as Hin.
  - rewrite list_at_set_list. case_decide as Hl.
    + subst l. rewrite elem_of_app, list_elem_of_singleton.
      split; [intros [?|?]; auto | intros [?|[_ ?]]; auto].
    + split; [auto | intros [?|[? _]]; [assumption | congruence]].
  - split; [auto|]. intros [?|[-> ->]]; [assumption|].
    destruct (decide (cc ∈ Obj.list_at h (Obj.Student.courses s)));
      [assumption | contradiction].
Qed.

Lemma obj_add_student_elem sid c h l x :
  x ∈ Obj.list_at (Obj.Course.add_student sid c h) l ↔
  x ∈ Obj.list_at h l ∨ (l = Obj.Course.students c ∧ x = sid).
Proof.
  unfold Obj.Course.add_student. case_decide as Hin.
  - rewrite list_at_set_list. case_decide as Hl.
    + subst l. rewrite elem_of_app, list_elem_of_singleton.
      split; [intros [?|?]; auto | intros [?|[_ ?]]; auto].
    + split; [auto | intros [?|[? _]]; [assumption | congruence]].
  - split; [auto|]. intros [?|[-> ->]]; [assumption|].
    destruct (decide (sid ∈ Obj.list_at h (Obj.Course.students c)));
      [assumption | contradiction].
Qed.

Lemma obj_enroll_course_other cc s h l :
  l ≠ Obj.Student.courses s →
  Obj.list_at (Obj.Student.enroll_course cc s h) l = Obj.list_at h l.
Proof.
  intros Hl. unfold Obj.Student.enroll_course. case_decide; [|reflexivity].
  rewrite list_at_set_list. case_decide; [congruence | reflexivity].
Qed.

Lemma obj_add_student_other sid c h l :
  l ≠ Obj.Course.students c →
  Obj.list_at (Obj.Course.add_student sid c h) l = Obj.list_at h l.
Proof.
  intros Hl. unfold Obj.Course.add_student. case_decide; [|reflexivity].
  rewrite list_at_set_list. case_decide; [congruence | reflexivity].
Qed.

Lemma obj_enroll_course_allocated cc s h l :
  is_Some (Obj.lists h !! l) →
  is_Some (Obj.lists (Obj.Student.enroll_course cc s h) !! l).
Proof.
  intros Hl. unfold Obj.Student.enroll_course. case_decide; [|exact Hl].
  cbn. apply lookup_insert_is_Some'. right. exact Hl.
Qed.

Lemma obj_add_student_allocated sid c h l :
  is_Some (Obj.lists h !! l) →
  is_Some (Obj.lists (Obj.Course.add_student sid c h) !! l).
Proof.
  intros Hl. unfold Obj.Course.add_student. case_decide; [|exact Hl].
  cbn. apply lookup_insert_is_Some'. right. exact Hl.
Qed.

(** The lists after [enroll]: what was there, the code in the student's
    list and the identifier in the course's list. *)
Lemma enroll_lists_elem cc sid s c h l x :
  x ∈ Obj.list_at (Obj.Course.add_student sid c (Obj.Student.enroll_course cc s h)) l ↔
  x ∈ Obj.list_at h l ∨ (l = Obj.Student.courses s ∧ x = cc) ∨
  (l = Obj.Course.students c ∧ x = sid).
Proof. rewrite obj_add_student_elem, obj_enroll_course_elem. tauto. Qed.

End Heap.

Section ObjOperations.

Implicit Types (ds : Obj.DataStore.t) (sid cc grade : string).

Lemma obj_enroll_found ds sid cc s c :
  Obj.DataStore.get_student sid ds = Some s →
  Obj.DataStore.get_course cc ds = Some c →
  Obj.DataStore.enroll sid cc ds =
    (Obj.enrolled_message s c,
     {| Obj.DataStore.students := Obj.DataStore.students ds;
        Obj.DataStore.courses := Obj.DataStore.courses ds;
        Obj.DataStore.objects :=
          Obj.Course.add_student sid c
            (Obj.Student.enroll_course cc s (Obj.DataStore.objects ds)) |}).
Proof. intros Hs Hc. unfold Obj.DataStore.enroll. rewrite Hs, Hc. reflexivity. Qed.

Lemma obj_graded_message_not_error grade s c :
  Obj.graded_message grade s c ∉ error_results.
Proof.
  unfold error_results, Obj.graded_message. cbn.
  rewrite !elem_of_cons, elem_of_nil. intros [H|[H|[H|[]]]]; discriminate H.
Qed.

Lemma twins_built_on_one_list :
  ∃ s1 s2,
    Obj.DataStore.get_student "S1" twins = Some s1 ∧
    Obj.DataStore.get_student "S2" twins = Some s2 ∧
    Obj.Student.courses s1 = Obj.Student.courses s2 ∧
    Obj.Student.grades s1 = Obj.Student.grades s2.
Proof. eexists _, _. repeat split; reflexivity. Qed.

(** C9, as stated, fails: of two students built on one list, the
    enrolment of the first changes the record of the second. *)
Lemma enroll_frame_counterexample :
  Obj.Trace.reachable twins ∧
  is_Some (Obj.DataStore.get_student "S1" twins) ∧
  is_Some (Obj.DataStore.get_course "C1" twins) ∧
  ∃ s2,
    Obj.DataStore.get_student "S2" twins = Some s2 ∧
    Obj.DataStore.get_student "S2" (Obj.DataStore.enroll "S1" "C1" twins).2 = Some s2 ∧
    student_value (Obj.DataStore.objects twins) s2
      = Student.mk "Bela" 31 "Sylhet" "S2" ∅ [] ∧
    student_value (Obj.DataStore.objects (Obj.DataStore.enroll "S1" "C1" twins).2) s2
      = Student.mk "Bela" 31 "Sylhet" "S2" ∅ ["C1"].
Proof.
  split; [|split; [|split]].
  - eexists. split; [|reflexivity]. repeat constructor.
  - eexists. reflexivity.
  - eexists. reflexivity.
  - eexists. repeat split; reflexivity.
Qed.

(** C9, amended. With the student and the course both in the store,
    [enroll] succeeds and writes to two objects at most, the course list
    of that student and the student list of that course.  Every record
    stays in place with its name, age, address, identifier, course name,
    code and instructor; all grades are kept; and every other student or
    course shows the same list as before unless it is built on one of the
    two lists written to. *)
Theorem enroll_frame ds sid cc s c :
  Obj.DataStore.get_student sid ds = Some s →
  Obj.DataStore.get_course cc ds = Some c →
  (Obj.DataStore.enroll sid cc ds).1 = Obj.enrolled_message s c ∧
  Obj.DataStore.students (Obj.DataStore.enroll sid cc ds).2 = Obj.DataStore.students ds ∧
  Obj.DataStore.courses (Obj.DataStore.enroll sid cc ds).2 = Obj.DataStore.courses ds ∧
  Obj.dicts (Obj.DataStore.objects (Obj.DataStore.enroll sid cc ds).2)
    = Obj.dicts (Obj.DataStore.objects ds) ∧
  (∀ sid' s', Obj.DataStore.get_student sid' ds = Some s' →
     Obj.Student.courses s' ≠ Obj.Student.courses s →
     Obj.Student.courses s' ≠ Obj.Course.students c →
     student_value (Obj.DataStore.objects (Obj.DataStore.enroll sid cc ds).2) s'
       = student_value (Obj.DataStore.objects ds) s') ∧
  (∀ cc' c', Obj.DataStore.get_course cc' ds = Some c' →
     Obj.Course.students c' ≠ Obj.Student.courses s →
     Obj.Course.students c' ≠ Obj.Course.students c →
     course_value (Obj.DataStore.objects (Obj.DataStore.enroll sid cc ds).2) c'
       = course_value (Obj.DataStore.objects ds) c') ∧
  Student.grades (student_value (Obj.DataStore.objects (Obj.DataStore.enroll sid cc ds).2) s)
    = Student.grades (student_value (Obj.DataStore.objects ds) s).
Proof.
  intros Hs Hc. rewrite (obj_enroll_found ds sid cc s c Hs Hc).
  cbn [fst snd Obj.DataStore.students Obj.DataStore.courses Obj.DataStore.objects].
  assert (Hd : ∀ l,
    Obj.dict_at (Obj.Course.add_student sid c
                   (Obj.Student.enroll_course cc s (Obj.DataStore.objects ds))) l
    = Obj.dict_at (Obj.DataStore.objects ds) l).
  { intros l. unfold Obj.dict_at.
    rewrite obj_add_student_dicts, obj_enroll_course_dicts. reflexivity. }
  split; [reflexivity|]. split; [reflexivity|]. split; [reflexivity|].
  split; [rewrite obj_add_student_dicts, obj_enroll_course_dicts; reflexivity|].
  split; [|split].
  - intros sid' s' _ Hne1 Hne2. unfold student_value. rewrite Hd.
    rewrite obj_add_student_other, obj_enroll_course_other by assumption. reflexivity.
  - intros cc' c' _ Hne1 Hne2. unfold course_value.
    rewrite obj_add_student_other, obj_enroll_course_other by assumption. reflexivity.
  - cbn. apply Hd.
Qed.

Lemma enroll_frame_witness :
  (Obj.DataStore.enroll "S1" "C1" college).1
    = "Student Alia (ID: S1) enrolled in Algorithms (Code: C1)." ∧
  Obj.DataStore.students (Obj.DataStore.enroll "S1" "C1" college).2
    = Obj.DataStore.students college ∧
  Obj.DataStore.courses (Obj.DataStore.enroll "S1" "C1" college).2
    = Obj.DataStore.courses college ∧
  Obj.dicts (Obj.DataStore.objects (Obj.DataStore.enroll "S1" "C1" college).2)
    = Obj.dicts (Obj.DataStore.objects college) ∧
  student_value (Obj.DataStore.objects (Obj.DataStore.enroll "S1" "C1" college).2)
    (Obj.Student.mk "Bela" 31 "Sylhet" "S2" 2%positive 2%positive)
    = Student.mk "Bela" 31 "Sylhet" "S2" {[ "C2" := "B" ]} ["C1"; "C2"] ∧
  course_value (Obj.DataStore.objects (Obj.DataStore.enroll "S1" "C1" college).2)
    (Obj.Course.mk "Anatomy" "C2" "Dr. Y" 4%positive)
    = Course.mk "Anatomy" "C2" "Dr. Y" ["S2"].
Proof.
  destruct (enroll_frame college "S1" "C1"
              (Obj.Student.mk "Alia" 20 "Dhaka" "S1" 1%positive 1%positive)
              (Obj.Course.mk "Algorithms" "C1" "Dr. X" 3%positive) eq_refl eq_refl)
    as (Hmsg & Hst & Hco & Hdi & Hs & Hc & _).
  split; [exact Hmsg|]. split; [exact Hst|]. split; [exact Hco|].
  split; [exact Hdi|]. split.
  - rewrite (Hs "S2" (Obj.Student.mk "Bela" 31 "Sylhet" "S2" 2%positive 2%positive) eq_refl);
      [reflexivity | discriminate | discriminate].
  - rewrite (Hc "C2" (Obj.Course.mk "Anatomy" "C2" "Dr. Y" 4%positive) eq_refl);
      [reflexivity | discriminate | discriminate].
Defined.

End ObjOperations.

Section ObjGrading.

Implicit Types (ds : Obj.DataStore.t) (sid cc grade : string).

Lemma obj_add_grade_found ds sid cc grade s c :
  Obj.DataStore.get_student sid ds = Some s →
  Obj.DataStore.get_course cc ds = Some c →
  cc ∈ Obj.list_at (Obj.DataStore.objects ds) (Obj.Student.courses s) →
  Obj.DataStore.add_grade sid cc grade ds =
    (Obj.graded_message grade s c,
     {| Obj.DataStore.students := Obj.DataStore.students ds;
        Obj.DataStore.courses := Obj.DataStore.courses ds;
        Obj.DataStore.objects :=
          Obj.Student.add_grade cc grade s (Obj.DataStore.objects ds) |}).
Proof.
  intros Hs Hc Hin. unfold Obj.DataStore.add_grade. rewrite Hs, Hc.
  case_decide; [contradiction | reflexivity].
Qed.

Lemma obj_add_grade_refused ds sid cc grade s c :
  Obj.DataStore.get_student sid ds = Some s →
  Obj.DataStore.get_course cc ds = Some c →
  cc ∉ Obj.list_at (Obj.DataStore.objects ds) (Obj.Student.courses s) →
  Obj.DataStore.add_grade sid cc grade ds = (Obj.not_enrolled, ds).
Proof.
  intros Hs Hc Hin. unfold Obj.DataStore.add_grade. rewrite Hs, Hc.
  case_decide; [reflexivity | contradiction].
Qed.

(** X5. A successful [add_grade] writes to one object, the grades
    dictionary of the graded student, and there to the entry of the graded
    course only.  The records and all lists stay as they are, the student
    keeps the grades of the other courses, every course shows what it
    showed, and so does every other student unless it is built on that
    same dictionary. *)
Theorem add_grade_frame ds sid cc grade s c :
  Obj.DataStore.get_student sid ds = Some s →
  Obj.DataStore.get_course cc ds = Some c →
  cc ∈ Obj.list_at (Obj.DataStore.objects ds) (Obj.Student.courses s) →
  Obj.DataStore.students (Obj.DataStore.add_grade sid cc grade ds).2
    = Obj.DataStore.students ds ∧
  Obj.DataStore.courses (Obj.DataStore.add_grade sid cc grade ds).2
    = Obj.DataStore.courses ds ∧
  Obj.lists (Obj.DataStore.objects (Obj.DataStore.add_grade sid cc grade ds).2)
    = Obj.lists (Obj.DataStore.objects ds) ∧
  Obj.dict_at (Obj.DataStore.objects (Obj.DataStore.add_grade sid cc grade ds).2)
              (Obj.Student.grades s)
    = <[cc := grade]> (Obj.dict_at (Obj.DataStore.objects ds) (Obj.Student.grades s)) ∧
  (∀ sid' s', Obj.DataStore.get_student sid' ds = Some s' →
     Obj.Student.grades s' ≠ Obj.Student.grades s →
     student_value (Obj.DataStore.objects (Obj.DataStore.add_grade sid cc grade ds).2) s'
       = student_value (Obj.DataStore.objects ds) s') ∧
  (∀ cc' c', Obj.DataStore.get_course cc' ds = Some c' →
     course_value (Obj.DataStore.objects (Obj.DataStore.add_grade sid cc grade ds).2) c'
       = course_value (Obj.DataStore.objects ds) c').
Proof.
  intros Hs Hc Hin. rewrite (obj_add_grade_found ds sid cc grade s c Hs Hc Hin).
  cbn [snd Obj.DataStore.students Obj.DataStore.courses Obj.DataStore.objects].
  unfold Obj.Student.add_grade.
  split; [reflexivity|]. split; [reflexivity|]. split; [reflexivity|].
  split; [|split].
  - rewrite dict_at_set_dict. case_decide; [reflexivity | congruence].
  - intros sid' s' _ Hne. unfold student_value. rewrite dict_at_set_dict.
    case_decide; [congruence | reflexivity].
  - intros cc' c' _. reflexivity.
Qed.

Lemma add_grade_frame_witness :
  Obj.DataStore.students (Obj.DataStore.add_grade "S2" "C1" "A" college).2
    = Obj.DataStore.students college ∧
  Obj.DataStore.courses (Obj.DataStore.add_grade "S2" "C1" "A" college).2
    = Obj.DataStore.courses college ∧
  Obj.lists (Obj.DataStore.objects (Obj.DataStore.add_grade "S2" "C1" "A" college).2)
    = Obj.lists (Obj.DataStore.objects college) ∧
  Obj.dict_at (Obj.DataStore.objects (Obj.DataStore.add_grade "S2" "C1" "A" college).2)
              2%positive
    = <[ "C1" := "A" ]> {[ "C2" := "B" ]} ∧
  student_value (Obj.DataStore.objects (Obj.DataStore.add_grade "S2" "C1" "A" college).2)
    (Obj.Student.mk "Alia" 20 "Dhaka" "S1" 1%positive 1%positive)
    = Student.mk "Alia" 20 "Dhaka" "S1" ∅ [] ∧
  course_value (Obj.DataStore.objects (Obj.DataStore.add_grade "S2" "C1" "A" college).2)
    (Obj.Course.mk "Algorithms" "C1" "Dr. X" 3%positive)
    = Course.mk "Algorithms" "C1" "Dr. X" ["S2"].
Proof.
  assert (Hin : "C1" ∈ ["C1"; "C2"]).
  { apply (bool_decide_unpack _). vm_compute. exact I. }
  destruct (add_grade_frame college "S2" "C1" "A"
              (Obj.Student.mk "Bela" 31 "Sylhet" "S2" 2%positive 2%positive)
              (Obj.Course.mk "Algorithms" "C1" "Dr. X" 3%positive)
              eq_refl eq_refl Hin)
    as (Hst & Hco & Hli & Hdi & Hs & Hc).
  split; [exact Hst|]. split; [exact Hco|]. split; [exact Hli|].
  split; [exact Hdi|]. split.
  - rewrite (Hs "S1" (Obj.Student.mk "Alia" 20 "Dhaka" "S1" 1%positive 1%positive)
               eq_refl); [reflexivity | discriminate].
  - rewrite (Hc "C1" (Obj.Course.mk "Algorithms" "C1" "Dr. X" 3%positive) eq_refl).
    reflexivity.
Defined.

End ObjGrading.

Section ObjReachability.

Implicit Types (ds : Obj.DataStore.t) (h : Obj.heap).

Lemma obj_run_snoc ops o :
  Obj.Trace.run (ops ++ [o]) = Obj.Trace.apply o (Obj.Trace.run ops).
Proof. unfold Obj.Trace.run. rewrite foldl_app. reflexivity. Qed.

Lemma obj_reachable_by_inv (P : Obj.Trace.op → Prop) (I : Obj.DataStore.t → Prop) :
  I Obj.DataStore.empty →
  (∀ ds o, I ds → P o → I (Obj.Trace.apply o ds)) →
  ∀ ds, Obj.Trace.reachable_by P ds → I ds.
Proof.
  intros Hempty Hstep ds (ops & Hops & ->).
  induction ops as [|o ops IH] using rev_ind; [exact Hempty|].
  apply Forall_app in Hops as [Hops Ho].
  rewrite obj_run_snoc. apply Hstep; [auto|].
  inversion Ho; assumption.
Qed.

Lemma obj_run_reachable_by (P : Obj.Trace.op → Prop) ops :
  Forall P ops → Obj.Trace.reachable_by P (Obj.Trace.run ops).
Proof. intros H. exists ops. split; [exact H | reflexivity]. Qed.

(** *** Creating objects *)

Lemma pass_dict_lists g h : Obj.lists (Obj.pass_dict g h).2 = Obj.lists h.
Proof. destruct g; reflexivity. Qed.


Lemma list_at_same_lists h h' l :
  Obj.lists h' = Obj.lists h → Obj.list_at h' l = Obj.list_at h l.
Proof. unfold Obj.list_at. intros ->. reflexivity. Qed.


(** A list that exists reads the same after a new one was created. *)
Lemma new_list_other v h l :
  is_Some (Obj.lists h !! l) →
  Obj.list_at (Obj.new_list v h).2 l = Obj.list_at h l.
Proof.
  intros [x Hx]. unfold Obj.new_list. cbn. rewrite list_at_set_list.
  case_decide as Hl; [|reflexivity].
  subst l. rewrite fresh_list_unused in Hx. discriminate Hx.
Qed.

Lemma new_list_allocated v h l :
  is_Some (Obj.lists h !! l) → is_Some (Obj.lists (Obj.new_list v h).2 !! l).
Proof. intros Hl. cbn. apply lookup_insert_is_Some'. right. exact Hl. Qed.

Lemma new_list_self v h : Obj.list_at (Obj.new_list v h).2 (Obj.new_list v h).1 = v.
Proof.
  unfold Obj.new_list. cbn. rewrite list_at_set_list.
  case_decide; [reflexivity | contradiction].
Qed.




(** *** Records on lists of their own *)

Lemma separate_empty : Obj.separate Obj.DataStore.empty.
Proof. split; cbn; intros *; rewrite lookup_empty; discriminate. Qed.

Lemma separate_new_student n a ad i g ds :
  Obj.separate ds →
  Obj.separate (Obj.Trace.apply (Obj.Trace.AddStudent n a ad i g (Obj.Fresh [])) ds).
Proof.
  intros [Has Hac Hss Hcc Hsc]. unfold Obj.Trace.apply.
  destruct (Obj.pass_dict g (Obj.DataStore.objects ds)) as [lg h1] eqn:Hg.
  assert (Hl1 : Obj.lists h1 = Obj.lists (Obj.DataStore.objects ds)).
  { pose proof (pass_dict_lists g (Obj.DataStore.objects ds)) as Hl.
    rewrite Hg in Hl. exact Hl. }
  unfold Obj.pass_list, Obj.new_list, Obj.DataStore.add_student. cbn.
  assert (Hold : ∀ l, is_Some (Obj.lists (Obj.DataStore.objects ds) !! l) →
                      is_Some (<[fresh (dom (Obj.lists h1)) := []]> (Obj.lists h1) !! l)).
  { intros l Hl. apply lookup_insert_is_Some'. right. rewrite Hl1. exact Hl. }
  assert (Hnew : ∀ l, is_Some (Obj.lists (Obj.DataStore.objects ds) !! l) →
                      l ≠ fresh (dom (Obj.lists h1))).
  { intros l [x Hx] ->. rewrite <- Hl1, fresh_list_unused in Hx. discriminate Hx. }
  case_decide as Hin; cbn; split; cbn; eauto.
  - intros k s. rewrite lookup_insert. case_decide.
    + intros [= <-]. cbn. rewrite lookup_insert_eq. eauto.
    + eauto.
  - intros k k' s s'. rewrite !lookup_insert.
    repeat case_decide; subst; try congruence.
    + intros [= <-] Hs' Heq. cbn in Heq. destruct (Hnew _ (Has _ _ Hs')). congruence.
    + intros Hs [= <-] Heq. cbn in Heq. destruct (Hnew _ (Has _ _ Hs)). congruence.
    + eauto.
  - intros k k' s c. rewrite lookup_insert. case_decide; [|eauto].
    intros [= <-] Hc Heq. cbn in Heq. destruct (Hnew _ (Hac _ _ Hc)). congruence.
Qed.

Lemma separate_new_course n cc i v ds :
  Obj.separate ds →
  Obj.separate (Obj.Trace.apply (Obj.Trace.AddCourse n cc i (Obj.Fresh v)) ds).
Proof.
  intros [Has Hac Hss Hcc Hsc].
  unfold Obj.Trace.apply, Obj.pass_list, Obj.new_list, Obj.DataStore.add_course. cbn.
  set (h := Obj.DataStore.objects ds) in *.
  assert (Hold : ∀ l, is_Some (Obj.lists h !! l) →
                      is_Some (<[fresh (dom (Obj.lists h)) := v]> (Obj.lists h) !! l)).
  { intros l Hl. apply lookup_insert_is_Some'. right. exact Hl. }
  assert (Hnew : ∀ l, is_Some (Obj.lists h !! l) → l ≠ fresh (dom (Obj.lists h))).
  { intros l [x Hx] ->. rewrite fresh_list_unused in Hx. discriminate Hx. }
  case_decide as Hin; cbn; split; cbn; eauto.
  - intros k c. rewrite lookup_insert. case_decide.
    + intros [= <-]. cbn. rewrite lookup_insert_eq. eauto.
    + eauto.
  - intros k k' c c'. rewrite !lookup_insert.
    repeat case_decide; subst; try congruence.
    + intros [= <-] Hc' Heq. cbn in Heq. destruct (Hnew _ (Hac _ _ Hc')). congruence.
    + intros Hc [= <-] Heq. cbn in Heq. destruct (Hnew _ (Hac _ _ Hc)). congruence.
    + eauto.
  - intros k k' s c Hs. rewrite lookup_insert. case_decide; [|eauto].
    intros [= <-] Heq. cbn in Heq. destruct (Hnew _ (Has _ _ Hs)). congruence.
Qed.

Lemma separate_enroll sid cc ds :
  Obj.separate ds → Obj.separate (Obj.DataStore.enroll sid cc ds).2.
Proof.
  intros Hsep. unfold Obj.DataStore.enroll.
  destruct (Obj.DataStore.get_student sid ds) as [s|]; [|exact Hsep].
  destruct (Obj.DataStore.get_course cc ds) as [c|]; [|exact Hsep].
  destruct Hsep as [Has Hac Hss Hcc Hsc]. split; cbn; eauto.
  - intros k s' Hs'. apply obj_add_student_allocated, obj_enroll_course_allocated. eauto.
  - intros k c' Hc'. apply obj_add_student_allocated, obj_enroll_course_allocated. eauto.
Qed.

Lemma separate_add_grade sid cc g ds :
  Obj.separate ds → Obj.separate (Obj.DataStore.add_grade sid cc g ds).2.
Proof.
  intros Hsep. unfold Obj.DataStore.add_grade.
  destruct (Obj.DataStore.get_student sid ds) as [s|]; [|exact Hsep].
  destruct (Obj.DataStore.get_course cc ds) as [c|]; [|exact Hsep].
  case_decide; [exact Hsep|].
  destruct Hsep as [Has Hac Hss Hcc Hsc]. split; cbn; eauto.
Qed.

Lemma separate_step o ds :
  Obj.Trace.unenrolled o → Obj.separate ds → Obj.separate (Obj.Trace.apply o ds).
Proof.
  destruct o as [n a ad i g lc|n cc i ls|sid cc|sid cc g]; intros Ho Hsep.
  - cbn in Ho. subst lc. apply separate_new_student. exact Hsep.
  - destruct Ho as [v ->]. apply separate_new_course. exact Hsep.
  - apply separate_enroll. exact Hsep.
  - apply separate_add_grade. exact Hsep.
Qed.

Lemma unlinked_unenrolled o : Obj.Trace.unlinked o → Obj.Trace.unenrolled o.
Proof. destruct o; cbn; eauto. Qed.

End ObjReachability.

Section ObjSymmetry.

Implicit Types (ds : Obj.DataStore.t) (h : Obj.heap).

Lemma obj_linked_empty : Obj.linked Obj.DataStore.empty.
Proof. split; cbn; intros *; rewrite lookup_empty; discriminate. Qed.

Lemma obj_linked_new_student n a ad i g ds :
  Obj.separate ds → Obj.linked ds →
  Obj.linked (Obj.Trace.apply (Obj.Trace.AddStudent n a ad i g (Obj.Fresh [])) ds).
Proof.
  intros [Has Hac _ _ _] [Hks Hkc Hf Hb]. unfold Obj.Trace.apply.
  destruct (Obj.pass_dict g (Obj.DataStore.objects ds)) as [lg h1] eqn:Hg.
  assert (Hl1 : Obj.lists h1 = Obj.lists (Obj.DataStore.objects ds)).
  { pose proof (pass_dict_lists g (Obj.DataStore.objects ds)) as Hl.
    rewrite Hg in Hl. exact Hl. }
  destruct (Obj.pass_list (Obj.Fresh []) h1) as [lc h2] eqn:Hlc.
  assert (Hh2 : (Obj.new_list [] h1).2 = h2).
  { change (Obj.new_list [] h1) with (Obj.pass_list (Obj.Fresh []) h1).
    rewrite Hlc. reflexivity. }
  assert (Hlc1 : (Obj.new_list [] h1).1 = lc).
  { change (Obj.new_list [] h1) with (Obj.pass_list (Obj.Fresh []) h1).
    rewrite Hlc. reflexivity. }
  assert (Hsame : ∀ l, is_Some (Obj.lists (Obj.DataStore.objects ds) !! l) →
                       Obj.list_at h2 l = Obj.list_at (Obj.DataStore.objects ds) l).
  { intros l Hl. rewrite <- Hh2.
    rewrite new_list_other by (rewrite Hl1; exact Hl).
    apply list_at_same_lists. exact Hl1. }
  assert (Hself : Obj.list_at h2 lc = []).
  { rewrite <- Hh2, <- Hlc1. apply new_list_self. }
  unfold Obj.DataStore.add_student. cbn [Obj.Student.student_id Obj.DataStore.students].
  case_decide as Hin; cbn [snd]; split;
    cbn [Obj.DataStore.students Obj.DataStore.courses Obj.DataStore.objects].
  - exact Hks.
  - exact Hkc.
  - intros k s cc Hs Hcc. rewrite (Hsame _ (Has _ _ Hs)) in Hcc.
    destruct (Hf _ _ _ Hs Hcc) as (c & Hc & Hk). exists c.
    split; [exact Hc|]. rewrite (Hsame _ (Hac _ _ Hc)). exact Hk.
  - intros k c sid Hc Hsid. rewrite (Hsame _ (Hac _ _ Hc)) in Hsid.
    destruct (Hb _ _ _ Hc Hsid) as (s & Hs & Hk). exists s.
    split; [exact Hs|]. rewrite (Hsame _ (Has _ _ Hs)). exact Hk.
  - intros k s. rewrite lookup_insert. case_decide; [|apply Hks].
    intros [= <-]. cbn. congruence.
  - exact Hkc.
  - intros k s cc. rewrite lookup_insert. case_decide.
    + intros [= <-]. cbn. rewrite Hself. intros H'.
      apply elem_of_nil in H'. contradiction.
    + intros Hs Hcc. rewrite (Hsame _ (Has _ _ Hs)) in Hcc.
      destruct (Hf _ _ _ Hs Hcc) as (c & Hc & Hk). exists c.
      split; [exact Hc|]. rewrite (Hsame _ (Hac _ _ Hc)). exact Hk.
  - intros k c sid Hc Hsid. rewrite (Hsame _ (Hac _ _ Hc)) in Hsid.
    destruct (Hb _ _ _ Hc Hsid) as (s & Hs & Hk). exists s.
    apply eq_None_not_Some in Hin.
    rewrite lookup_insert_ne by (intros ->; congruence).
    split; [exact Hs|]. rewrite (Hsame _ (Has _ _ Hs)). exact Hk.
Qed.

Lemma obj_linked_new_course n cc i ds :
  Obj.separate ds → Obj.linked ds →
  Obj.linked (Obj.Trace.apply (Obj.Trace.AddCourse n cc i (Obj.Fresh [])) ds).
Proof.
  intros [Has Hac _ _ _] [Hks Hkc Hf Hb]. unfold Obj.Trace.apply.
  set (h := Obj.DataStore.objects ds) in *.
  destruct (Obj.pass_list (Obj.Fresh []) h) as [ls h1] eqn:Hls.
  assert (Hh1 : (Obj.new_list [] h).2 = h1).
  { change (Obj.new_list [] h) with (Obj.pass_list (Obj.Fresh []) h).
    rewrite Hls. reflexivity. }
  assert (Hls1 : (Obj.new_list [] h).1 = ls).
  { change (Obj.new_list [] h) with (Obj.pass_list (Obj.Fresh []) h).
    rewrite Hls. reflexivity. }
  assert (Hsame : ∀ l, is_Some (Obj.lists h !! l) → Obj.list_at h1 l = Obj.list_at h l).
  { intros l Hl. rewrite <- Hh1. apply new_list_other. exact Hl. }
  assert (Hself : Obj.list_at h1 ls = []).
  { rewrite <- Hh1, <- Hls1. apply new_list_self. }
  unfold Obj.DataStore.add_course. cbn [Obj.Course.course_code Obj.DataStore.courses].
  case_decide as Hin; cbn [snd]; split;
    cbn [Obj.DataStore.students Obj.DataStore.courses Obj.DataStore.objects].
  - exact Hks.
  - exact Hkc.
  - intros k s cc' Hs Hcc. rewrite (Hsame _ (Has _ _ Hs)) in Hcc.
    destruct (Hf _ _ _ Hs Hcc) as (c & Hc & Hk). exists c.
    split; [exact Hc|]. rewrite (Hsame _ (Hac _ _ Hc)). exact Hk.
  - intros k c sid Hc Hsid. rewrite (Hsame _ (Hac _ _ Hc)) in Hsid.
    destruct (Hb _ _ _ Hc Hsid) as (s & Hs & Hk). exists s.
    split; [exact Hs|]. rewrite (Hsame _ (Has _ _ Hs)). exact Hk.
  - exact Hks.
  - intros k c. rewrite lookup_insert. case_decide; [|apply Hkc].
    intros [= <-]. cbn. congruence.
  - intros k s cc' Hs Hcc. rewrite (Hsame _ (Has _ _ Hs)) in Hcc.
    destruct (Hf _ _ _ Hs Hcc) as (c & Hc & Hk). exists c.
    apply eq_None_not_Some in Hin.
    rewrite lookup_insert_ne by (intros ->; congruence).
    split; [exact Hc|]. rewrite (Hsame _ (Hac _ _ Hc)). exact Hk.
  - intros k c sid. rewrite lookup_insert. case_decide.
    + intros [= <-]. cbn. rewrite Hself. intros H'.
      apply elem_of_nil in H'. contradiction.
    + intros Hc Hsid. rewrite (Hsame _ (Hac _ _ Hc)) in Hsid.
      destruct (Hb _ _ _ Hc Hsid) as (s & Hs & Hk). exists s.
      split; [exact Hs|]. rewrite (Hsame _ (Has _ _ Hs)). exact Hk.
Qed.

Lemma obj_linked_enroll sid cc ds :
  Obj.separate ds → Obj.linked ds → Obj.linked (Obj.DataStore.enroll sid cc ds).2.
Proof.
  intros Hsep Hl.
  destruct (Obj.DataStore.get_student sid ds) as [s|] eqn:Hs; cycle 1.
  { unfold Obj.DataStore.enroll. rewrite Hs. exact Hl. }
  destruct (Obj.DataStore.get_course cc ds) as [c|] eqn:Hc; cycle 1.
  { unfold Obj.DataStore.enroll. rewrite Hs, Hc. exact Hl. }
  rewrite (obj_enroll_found ds sid cc s c Hs Hc).
  unfold Obj.DataStore.get_student, Obj.DataStore.get_course in Hs, Hc.
  destruct Hsep as [_ _ Hss Hcc Hsc]. destruct Hl as [Hks Hkc Hf Hb].
  split; cbn [snd Obj.DataStore.students Obj.DataStore.courses Obj.DataStore.objects].
  - exact Hks.
  - exact Hkc.
  - intros k s' cc' Hs' Hin. apply enroll_lists_elem in Hin as [Hin|[[Hl ->]|[Hl _]]].
    + destruct (Hf _ _ _ Hs' Hin) as (c' & Hc' & Hk). exists c'.
      split; [exact Hc'|]. apply enroll_lists_elem. left. exact Hk.
    + assert (k = sid) as -> by (eapply Hss; eassumption).
      exists c. split; [exact Hc|]. apply enroll_lists_elem. right. right. auto.
    + destruct (Hsc _ _ _ _ Hs' Hc Hl).
  - intros k c' sid' Hc' Hin. apply enroll_lists_elem in Hin as [Hin|[[Hl _]|[Hl ->]]].
    + destruct (Hb _ _ _ Hc' Hin) as (s' & Hs' & Hk). exists s'.
      split; [exact Hs'|]. apply enroll_lists_elem. left. exact Hk.
    + destruct (Hsc _ _ _ _ Hs Hc'). congruence.
    + assert (k = cc) as -> by (eapply Hcc; eassumption).
      exists s. split; [exact Hs|]. apply enroll_lists_elem. right. left. auto.
Qed.

Lemma obj_linked_add_grade sid cc g ds :
  Obj.linked ds → Obj.linked (Obj.DataStore.add_grade sid cc g ds).2.
Proof.
  intros Hl. unfold Obj.DataStore.add_grade.
  destruct (Obj.DataStore.get_student sid ds) as [s|]; [|exact Hl].
  destruct (Obj.DataStore.get_course cc ds) as [c|]; [|exact Hl].
  case_decide; [exact Hl|].
  destruct Hl as [Hks Hkc Hf Hb]. split; cbn; eauto.
Qed.

Lemma obj_linked_step o ds :
  Obj.Trace.unlinked o → Obj.separate ds ∧ Obj.linked ds →
  Obj.separate (Obj.Trace.apply o ds) ∧ Obj.linked (Obj.Trace.apply o ds).
Proof.
  intros Ho [Hsep Hl].
  split; [apply separate_step; [apply unlinked_unenrolled|]; assumption|].
  destruct o as [n a ad i g lc|n cc i ls|sid cc|sid cc g]; cbn in Ho.
  - subst lc. apply obj_linked_new_student; assumption.
  - subst ls. apply obj_linked_new_course; assumption.
  - apply obj_linked_enroll; assumption.
  - apply obj_linked_add_grade; assumption.
Qed.

Lemma obj_linked_symmetric ds : Obj.linked ds → Obj.enrollment_symmetric ds.
Proof.
  intros [Hks Hkc Hf Hb] sid s cc c Hs Hc.
  rewrite (Hks _ _ Hs), (Hkc _ _ Hc). split.
  - intros Hin. destruct (Hf _ _ _ Hs Hin) as (c' & Hc' & Hk). congruence.
  - intros Hin. destruct (Hb _ _ _ Hc Hin) as (s' & Hs' & Hk). congruence.
Qed.

(** C2, as stated, fails: [add_student] stores the record it is given
    without looking at its course list, so a record that lists "C1"
    already, followed by the creation of course "C1", gives a store where
    the student lists the course and the course does not list the
    student. *)
Lemma enrollment_symmetric_counterexample :
  Obj.Trace.reachable (Obj.Trace.run prelinked_ops) ∧
  ¬ Obj.enrollment_symmetric (Obj.Trace.run prelinked_ops).
Proof.
  split.
  - apply obj_run_reachable_by. repeat constructor.
  - intros Hsym.
    pose proof (Hsym "S1" (Obj.Student.mk "Alia" 20 "Dhaka" "S1" 1%positive 1%positive)
                  "C1" (Obj.Course.mk "Algorithms" "C1" "Dr. X" 2%positive)
                  eq_refl eq_refl) as [Hfwd _].
    vm_compute in Hfwd.
    specialize (Hfwd ltac:(apply list_elem_of_singleton; reflexivity)).
    apply elem_of_nil in Hfwd. exact Hfwd.
Qed.

(** Records added with empty lists do not save the symmetry when two of
    them are built on the same list object: enrolling one of the [twins]
    puts the course into the list of the other, whom the course does not
    list. *)
Lemma shared_list_breaks_symmetry :
  ¬ Obj.enrollment_symmetric (Obj.DataStore.enroll "S1" "C1" twins).2.
Proof.
  intros Hsym.
  pose proof (Hsym "S2" (Obj.Student.mk "Bela" 31 "Sylhet" "S2" 1%positive 1%positive)
                "C1" (Obj.Course.mk "Algorithms" "C1" "Dr. X" 2%positive)
                eq_refl eq_refl) as [Hfwd _].
  vm_compute in Hfwd.
  specialize (Hfwd ltac:(apply list_elem_of_singleton; reflexivity)).
  apply list_elem_of_singleton in Hfwd. discriminate Hfwd.
Qed.

(** C2, amended. In every store built from the empty store by
    [add_student], [add_course], [enroll] and [add_grade], where each
    student record is built on a new, empty course list of its own and
    each course record on a new, empty student list of its own, a course
    of the store has its code in the course list of a student of the store
    exactly when the student's identifier is in the student list of the
    course. *)
Theorem enrollment_symmetric_reachable ds :
  Obj.Trace.reachable_by Obj.Trace.unlinked ds → Obj.enrollment_symmetric ds.
Proof.
  intros Hreach. apply obj_linked_symmetric.
  apply (obj_reachable_by_inv Obj.Trace.unlinked
           (λ ds, Obj.separate ds ∧ Obj.linked ds)); [| |exact Hreach].
  - split; [apply separate_empty | apply obj_linked_empty].
  - intros ds0 o HI Ho. apply obj_linked_step; assumption.
Qed.

Lemma enrollment_symmetric_reachable_witness : Obj.enrollment_symmetric college.
Proof.
  apply enrollment_symmetric_reachable. apply obj_run_reachable_by.
  repeat constructor.
Defined.

End ObjSymmetry.

Section ObjBeforeEnroll.

Implicit Types (ds : Obj.DataStore.t) (h : Obj.heap).

(** The store after a student was added on a new list. *)
Lemma apply_new_student n a ad i g v ds :
  Obj.DataStore.courses (Obj.Trace.apply (Obj.Trace.AddStudent n a ad i g (Obj.Fresh v)) ds)
    = Obj.DataStore.courses ds ∧
  (∀ l, is_Some (Obj.lists (Obj.DataStore.objects ds) !! l) →
     Obj.list_at (Obj.DataStore.objects
                    (Obj.Trace.apply (Obj.Trace.AddStudent n a ad i g (Obj.Fresh v)) ds)) l
     = Obj.list_at (Obj.DataStore.objects ds) l) ∧
  (∀ k s,
     Obj.DataStore.students
       (Obj.Trace.apply (Obj.Trace.AddStudent n a ad i g (Obj.Fresh v)) ds) !! k = Some s →
     Obj.DataStore.students ds !! k = Some s ∨
     Obj.list_at (Obj.DataStore.objects
                    (Obj.Trace.apply (Obj.Trace.AddStudent n a ad i g (Obj.Fresh v)) ds))
                 (Obj.Student.courses s) = v).
Proof.
  unfold Obj.Trace.apply.
  destruct (Obj.pass_dict g (Obj.DataStore.objects ds)) as [lg h1] eqn:Hg.
  assert (Hl1 : Obj.lists h1 = Obj.lists (Obj.DataStore.objects ds)).
  { pose proof (pass_dict_lists g (Obj.DataStore.objects ds)) as Hl.
    rewrite Hg in Hl. exact Hl. }
  destruct (Obj.pass_list (Obj.Fresh v) h1) as [lc h2] eqn:Hlc.
  assert (Hh2 : (Obj.new_list v h1).2 = h2).
  { change (Obj.new_list v h1) with (Obj.pass_list (Obj.Fresh v) h1).
    rewrite Hlc. reflexivity. }
  assert (Hlc1 : (Obj.new_list v h1).1 = lc).
  { change (Obj.new_list v h1) with (Obj.pass_list (Obj.Fresh v) h1).
    rewrite Hlc. reflexivity. }
  assert (Hsame : ∀ l, is_Some (Obj.lists (Obj.DataStore.objects ds) !! l) →
                       Obj.list_at h2 l = Obj.list_at (Obj.DataStore.objects ds) l).
  { intros l Hl. rewrite <- Hh2.
    rewrite new_list_other by (rewrite Hl1; exact Hl).
    apply list_at_same_lists. exact Hl1. }
  assert (Hself : Obj.list_at h2 lc = v).
  { rewrite <- Hh2, <- Hlc1. apply new_list_self. }
  unfold Obj.DataStore.add_student. cbn [Obj.Student.student_id Obj.DataStore.students].
  case_decide as Hin; cbn [snd Obj.DataStore.students Obj.DataStore.courses
                           Obj.DataStore.objects].
  - split; [reflexivity|]. split; [exact Hsame|]. auto.
  - split; [reflexivity|]. split; [exact Hsame|].
    intros k s. rewrite lookup_insert. case_decide; [|auto].
    intros [= <-]. right. exact Hself.
Qed.

(** The store after a course was added on a new list. *)
Lemma apply_new_course n cc i v ds :
  Obj.DataStore.students (Obj.Trace.apply (Obj.Trace.AddCourse n cc i (Obj.Fresh v)) ds)
    = Obj.DataStore.students ds ∧
  (∀ l, is_Some (Obj.lists (Obj.DataStore.objects ds) !! l) →
     Obj.list_at (Obj.DataStore.objects
                    (Obj.Trace.apply (Obj.Trace.AddCourse n cc i (Obj.Fresh v)) ds)) l
     = Obj.list_at (Obj.DataStore.objects ds) l).
Proof.
  unfold Obj.Trace.apply.
  destruct (Obj.pass_list (Obj.Fresh v) (Obj.DataStore.objects ds)) as [ls h1] eqn:Hls.
  assert (Hh1 : (Obj.new_list v (Obj.DataStore.objects ds)).2 = h1).
  { change (Obj.new_list v (Obj.DataStore.objects ds))
      with (Obj.pass_list (Obj.Fresh v) (Obj.DataStore.objects ds)).
    rewrite Hls. reflexivity. }
  assert (Hsame : ∀ l, is_Some (Obj.lists (Obj.DataStore.objects ds) !! l) →
                       Obj.list_at h1 l = Obj.list_at (Obj.DataStore.objects ds) l).
  { intros l Hl. rewrite <- Hh1. apply new_list_other. exact Hl. }
  unfold Obj.DataStore.add_course. cbn [Obj.Course.course_code Obj.DataStore.courses].
  case_decide; cbn [snd Obj.DataStore.students Obj.DataStore.objects];
    split; [reflexivity | exact Hsame | reflexivity | exact Hsame].
Qed.

(** When every record is built on a new list of its own, empty for a
    student, a course code gets into a student's list through [enroll] of
    that pair only. *)
Lemma obj_courses_come_from_enroll ops :
  Forall Obj.Trace.unenrolled ops →
  Obj.separate (Obj.Trace.run ops) ∧
  ∀ sid s cc,
    Obj.DataStore.get_student sid (Obj.Trace.run ops) = Some s →
    cc ∈ Obj.list_at (Obj.DataStore.objects (Obj.Trace.run ops)) (Obj.Student.courses s) →
    Obj.Trace.Enroll sid cc ∈ ops.
Proof.
  unfold Obj.DataStore.get_student.
  induction ops as [|o ops IH] using rev_ind; intros Hops.
  - split; [apply separate_empty|]. intros sid s cc. cbn.
    rewrite lookup_empty. discriminate.
  - apply Forall_app in Hops as [Hops Ho]. inversion Ho as [|? ? Hu _]; subst.
    destruct (IH Hops) as [Hsep Hfrom]. rewrite obj_run_snoc.
    split; [apply separate_step; assumption|].
    intros sid s cc. rewrite elem_of_app.
    destruct o as [n a ad i g lc|n cc' i ls|sid' cc'|sid' cc' g].
    + cbn in Hu. subst lc.
      destruct (apply_new_student n a ad i g [] (Obj.Trace.run ops))
        as (_ & Hsame & Hnew).
      intros Hs Hin. destruct (Hnew _ _ Hs) as [Hold | Hnil].
      * rewrite (Hsame _ (Obj.separate_student_list _ Hsep _ _ Hold)) in Hin. eauto.
      * rewrite Hnil in Hin. apply elem_of_nil in Hin. contradiction.
    + destruct Hu as [v ->].
      destruct (apply_new_course n cc' i v (Obj.Trace.run ops)) as (Hst & Hsame).
      rewrite Hst. intros Hs Hin.
      rewrite (Hsame _ (Obj.separate_student_list _ Hsep _ _ Hs)) in Hin. eauto.
    + cbn [Obj.Trace.apply].
      destruct (Obj.DataStore.get_student sid' (Obj.Trace.run ops)) as [s0|] eqn:Hs0;
        cycle 1.
      { unfold Obj.DataStore.enroll. rewrite Hs0. cbn. eauto. }
      destruct (Obj.DataStore.get_course cc' (Obj.Trace.run ops)) as [c0|] eqn:Hc0;
        cycle 1.
      { unfold Obj.DataStore.enroll. rewrite Hs0, Hc0. cbn. eauto. }
      rewrite (obj_enroll_found _ _ _ _ _ Hs0 Hc0).
      cbn [snd Obj.DataStore.students Obj.DataStore.objects].
      intros Hs Hin. apply enroll_lists_elem in Hin as [Hin|[[Hl ->]|[Hl _]]].
      * eauto.
      * assert (sid = sid') as ->.
        { eapply (Obj.separate_students _ Hsep); eassumption. }
        right. apply list_elem_of_singleton. reflexivity.
      * destruct (Obj.separate_student_course _ Hsep _ _ _ _ Hs Hc0 Hl).
    + cbn [Obj.Trace.apply]. unfold Obj.DataStore.add_grade.
      destruct (Obj.DataStore.get_student sid' (Obj.Trace.run ops)) as [s0|];
        [|cbn; eauto].
      destruct (Obj.DataStore.get_course cc' (Obj.Trace.run ops)) as [c0|];
        [|cbn; eauto].
      case_decide; cbn; eauto.
Qed.

(** C3, as stated, fails in its clause on calls before any [enroll]: a
    student handed in with course "C1" already listed is graded for it
    although [enroll] was never called. *)
Lemma add_grade_spec_counterexample :
  (Obj.Trace.Enroll "S1" "C1" ∉ prelinked_ops) ∧
  is_Some (Obj.DataStore.get_student "S1" (Obj.Trace.run prelinked_ops)) ∧
  is_Some (Obj.DataStore.get_course "C1" (Obj.Trace.run prelinked_ops)) ∧
  (Obj.DataStore.add_grade "S1" "C1" "A" (Obj.Trace.run prelinked_ops)).1
    = "Grade A added for Alia in Algorithms." ∧
  (Obj.DataStore.add_grade "S1" "C1" "A" (Obj.Trace.run prelinked_ops)).1
    ≠ Obj.not_enrolled.
Proof.
  split; [|split; [|split; [|split]]].
  - unfold prelinked_ops. rewrite !elem_of_cons, elem_of_nil.
    intros [H|[H|[]]]; discriminate H.
  - eexists. reflexivity.
  - eexists. reflexivity.
  - reflexivity.
  - discriminate.
Qed.

(** C3, amended. With the student and the course both in the store,
    [add_grade] returns the not-enrolled error exactly when the course
    code is not in the student's course list, and then changes nothing;
    when the code is in the list it returns the formatted success message
    and the student's grade for the course becomes the given one,
    replacing an earlier grade; after [enroll] of the pair the call
    succeeds and the grade is read back from the student.  In a store
    built by the four operations, where each student was added on a new,
    empty course list of its own and each course on a new student list of
    its own, [add_grade] for a pair that [enroll] was not called for
    returns the not-enrolled error. *)
Theorem add_grade_spec :
  (∀ ds sid cc grade s c,
     Obj.DataStore.get_student sid ds = Some s →
     Obj.DataStore.get_course cc ds = Some c →
     ((Obj.DataStore.add_grade sid cc grade ds).1 = Obj.not_enrolled ↔
        cc ∉ Obj.list_at (Obj.DataStore.objects ds) (Obj.Student.courses s)) ∧
     (cc ∉ Obj.list_at (Obj.DataStore.objects ds) (Obj.Student.courses s) →
        Obj.DataStore.add_grade sid cc grade ds = (Obj.not_enrolled, ds)) ∧
     (cc ∈ Obj.list_at (Obj.DataStore.objects ds) (Obj.Student.courses s) →
        (Obj.DataStore.add_grade sid cc grade ds).1 = Obj.graded_message grade s c ∧
        Obj.DataStore.get_student sid (Obj.DataStore.add_grade sid cc grade ds).2
          = Some s ∧
        Student.grades
          (student_value
             (Obj.DataStore.objects (Obj.DataStore.add_grade sid cc grade ds).2) s)
          = <[cc := grade]>
              (Student.grades (student_value (Obj.DataStore.objects ds) s))) ∧
     ((Obj.DataStore.add_grade sid cc grade (Obj.DataStore.enroll sid cc ds).2).1
        = Obj.graded_message grade s c ∧
      Obj.DataStore.get_student sid
        (Obj.DataStore.add_grade sid cc grade (Obj.DataStore.enroll sid cc ds).2).2
        = Some s ∧
      Student.grades
        (student_value
           (Obj.DataStore.objects
              (Obj.DataStore.add_grade sid cc grade (Obj.DataStore.enroll sid cc ds).2).2)
           s) !! cc = Some grade)) ∧
  (∀ ops sid cc grade s c,
     Forall Obj.Trace.unenrolled ops →
     Obj.Trace.Enroll sid cc ∉ ops →
     Obj.DataStore.get_student sid (Obj.Trace.run ops) = Some s →
     Obj.DataStore.get_course cc (Obj.Trace.run ops) = Some c →
     Obj.DataStore.add_grade sid cc grade (Obj.Trace.run ops)
       = (Obj.not_enrolled, Obj.Trace.run ops)).
Proof.
  split.
  - intros ds sid cc grade s c Hs Hc.
    pose proof (obj_add_grade_found ds sid cc grade s c Hs Hc) as Hyes.
    pose proof (obj_add_grade_refused ds sid cc grade s c Hs Hc) as Hno.
    split; [|split; [exact Hno|split]].
    + split.
      * intros Hmsg Hin. rewrite (Hyes Hin) in Hmsg. cbn [fst] in Hmsg.
        apply (obj_graded_message_not_error grade s c). rewrite Hmsg.
        unfold error_results. rewrite !elem_of_cons. auto.
      * intros Hin. rewrite (Hno Hin). reflexivity.
    + intros Hin. rewrite (Hyes Hin).
      cbn [fst snd Obj.DataStore.objects]. split; [reflexivity|].
      split; [exact Hs|].
      unfold student_value, Obj.Student.add_grade. cbn [Student.grades].
      rewrite dict_at_set_dict. case_decide; [reflexivity | congruence].
    + rewrite (obj_enroll_found ds sid cc s c Hs Hc). cbn [snd].
      erewrite obj_add_grade_found; cycle 1.
      { exact Hs. }
      { exact Hc. }
      { cbn [Obj.DataStore.objects]. apply enroll_lists_elem. right. left. auto. }
      cbn [fst snd Obj.DataStore.objects]. split; [reflexivity|].
      split; [exact Hs|].
      unfold student_value, Obj.Student.add_grade. cbn [Student.grades].
      rewrite dict_at_set_dict. case_decide; [|congruence].
      apply lookup_insert_eq.
  - intros ops sid cc grade s c Hops Hnever Hs Hc.
    apply (obj_add_grade_refused _ sid cc grade s c Hs Hc).
    intros Hin. apply Hnever.
    destruct (obj_courses_come_from_enroll ops Hops) as [_ Hfrom].
    exact (Hfrom sid s cc Hs Hin).
Qed.

Lemma add_grade_spec_witness :
  Obj.DataStore.add_grade "S1" "C1" "A" college = (Obj.not_enrolled, college) ∧
  (Obj.DataStore.add_grade "S2" "C2" "A" college).1
    = "Grade A added for Bela in Anatomy." ∧
  Student.grades
    (student_value
       (Obj.DataStore.objects (Obj.DataStore.add_grade "S2" "C2" "A" college).2)
       (Obj.Student.mk "Bela" 31 "Sylhet" "S2" 2%positive 2%positive))
    = <[ "C2" := "A" ]> {[ "C2" := "B" ]} ∧
  Student.grades
    (student_value
       (Obj.DataStore.objects
          (Obj.DataStore.add_grade "S1" "C2" "C" (Obj.DataStore.enroll "S1" "C2" college).2).2)
       (Obj.Student.mk "Alia" 20 "Dhaka" "S1" 1%positive 1%positive))
    !! "C2" = Some "C".
Proof.
  destruct add_grade_spec as [Hstate Htrace].
  assert (Hin : "C2" ∈ ["C1"; "C2"]).
  { apply (bool_decide_unpack _). vm_compute. exact I. }
  split; [|split; [|split]].
  - refine (Htrace
      [ Obj.Trace.AddStudent "Alia" 20 "Dhaka" "S1" (Obj.Fresh ∅) (Obj.Fresh []);
        Obj.Trace.AddStudent "Bela" 31 "Sylhet" "S2" (Obj.Fresh ∅) (Obj.Fresh []);
        Obj.Trace.AddCourse "Algorithms" "C1" "Dr. X" (Obj.Fresh []);
        Obj.Trace.AddCourse "Anatomy" "C2" "Dr. Y" (Obj.Fresh []);
        Obj.Trace.Enroll "S2" "C1"; Obj.Trace.Enroll "S2" "C2";
        Obj.Trace.AddGrade "S2" "C2" "B" ]
      "S1" "C1" "A"
      (Obj.Student.mk "Alia" 20 "Dhaka" "S1" 1%positive 1%positive)
      (Obj.Course.mk "Algorithms" "C1" "Dr. X" 3%positive) _ _ eq_refl eq_refl).
    + repeat constructor; eexists; reflexivity.
    + rewrite !elem_of_cons, elem_of_nil.
      intros [H|[H|[H|[H|[H|[H|[H|[]]]]]]]]; discriminate H.
  - destruct (Hstate college "S2" "C2" "A"
                (Obj.Student.mk "Bela" 31 "Sylhet" "S2" 2%positive 2%positive)
                (Obj.Course.mk "Anatomy" "C2" "Dr. Y" 4%positive) eq_refl eq_refl)
      as (_ & _ & Hyes & _).
    exact (proj1 (Hyes Hin)).
  - destruct (Hstate college "S2" "C2" "A"
                (Obj.Student.mk "Bela" 31 "Sylhet" "S2" 2%positive 2%positive)
                (Obj.Course.mk "Anatomy" "C2" "Dr. Y" 4%positive) eq_refl eq_refl)
      as (_ & _ & Hyes & _).
    exact (proj2 (proj2 (Hyes Hin))).
  - destruct (Hstate college "S1" "C2" "C"
                (Obj.Student.mk "Alia" 20 "Dhaka" "S1" 1%positive 1%positive)
                (Obj.Course.mk "Anatomy" "C2" "Dr. Y" 4%positive) eq_refl eq_refl)
      as (_ & _ & _ & Hafter).
    exact (proj2 (proj2 Hafter)).
Defined.

End ObjBeforeEnroll.

Section ObjGradesWithinCourses.

Implicit Types (ds : Obj.DataStore.t) (h : Obj.heap).








(** Records added without grades do not save the invariant when two of
    them are built on the same dictionary: grading the first, who is
    enrolled in "C1", gives the second, who is enrolled nowhere, a grade
    for "C1". *)
Lemma shared_dict_breaks_grades_within_courses :
  ¬ Obj.grades_within_courses
      (Obj.Trace.run
         [ Obj.Trace.AddStudent "Alia" 20 "Dhaka" "S1" (Obj.Fresh ∅) (Obj.Fresh []);
           Obj.Trace.AddStudent "Bela" 31 "Sylhet" "S2"
             (Obj.Existing 1%positive) (Obj.Fresh []);
           Obj.Trace.AddCourse "Algorithms" "C1" "Dr. X" (Obj.Fresh []);
           Obj.Trace.Enroll "S1" "C1"; Obj.Trace.AddGrade "S1" "C1" "A" ]).
Proof.
  intros Hinv.
  pose proof (Hinv "S2" (Obj.Student.mk "Bela" 31 "Sylhet" "S2" 1%positive 2%positive)
                "C1" eq_refl (mk_is_Some _ _ eq_refl)) as Hin.
  vm_compute in Hin. apply elem_of_nil in Hin. exact Hin.
Qed.



End ObjGradesWithinCourses.
